(** * PrepAI interview client: session controller and evaluation dashboard

    A shallow embedding of [src/js/pages/interview.js] (turn taking,
    transcript, completion detection), of the score part of the dashboard
    in [src/js/pages/feedback.js] and of the legacy feedback page, followed
    by the properties of the specification that concern them. *)

From Stdlib Require Import List String Ascii Bool Arith NArith Lia QArith DecimalString.
From Stdlib Require Import Permutation.
Import ListNotations.
Set Warnings "-register-all".
Local Close Scope Q_scope.
Local Open Scope string_scope.
Local Open Scope bool_scope.
Local Open Scope nat_scope.
Local Open Scope list_scope.

(** ** JavaScript values

    What [response.json()] can return, plus [undefined], the value of a
    property that is absent. A number is the double that parsing produced;
    every finite double is a rational, and the infinities are left out. An
    object is the list of its properties; the keys of a parsed object are
    distinct. *)
Module Js.

Inductive Value : Type :=
  | VUndefined
  | VNull
  | VBool (b : bool)
  | VNum (q : Q)
  | VStr (s : string)
  | VArr (items : list Value)
  | VObj (props : list (string * Value)).

(** [ToBoolean]: [undefined], [null], [false], [0] and the empty string are
    falsy, everything else (every array and object included) is truthy. *)
Definition truthy (v : Value) : bool :=
  match v with
  | VUndefined | VNull => false
  | VBool b => b
  | VNum q => negb (Qeq_bool q 0)
  | VStr s => negb (String.eqb s "")
  | VArr _ | VObj _ => true
  end.

Fixpoint lookup (k : string) (props : list (string * Value)) : Value :=
  match props with
  | [] => VUndefined
  | (k', v) :: rest => if String.eqb k k' then v else lookup k rest
  end.

(** [v.k] for the property names the pages read. Reading a property of
    [null] or [undefined] throws a [TypeError] ([None]); a boolean, number,
    string or array has none of these names, which gives [undefined]. *)
Definition get (v : Value) (k : string) : option Value :=
  match v with
  | VUndefined | VNull => None
  | VObj props => Some (lookup k props)
  | _ => Some VUndefined
  end.

(** [String.prototype.trim] on code units below 256: tab, line feed,
    vertical tab, form feed, carriage return, space and no-break space. *)
Definition isWhiteSpace (c : ascii) : bool :=
  let n := nat_of_ascii c in
  ((9 <=? n) && (n <=? 13)) || (n =? 32) || (n =? 160).

Fixpoint trimStart (s : string) : string :=
  match s with
  | EmptyString => EmptyString
  | String c rest => if isWhiteSpace c then trimStart rest else s
  end.

(** Drops the white space at the end: a character is kept when it is not
    white space or when something is kept after it. *)
Fixpoint trimEnd (s : string) : string :=
  match s with
  | EmptyString => EmptyString
  | String c rest =>
      match trimEnd rest with
      | EmptyString => if isWhiteSpace c then EmptyString else String c EmptyString
      | kept => String c kept
      end
  end.

Definition trim (s : string) : string := trimEnd (trimStart s).

(** [s] is empty or holds white space only. *)
Fixpoint allWhiteSpace (s : string) : bool :=
  match s with
  | EmptyString => true
  | String c rest => isWhiteSpace c && allWhiteSpace rest
  end.

(** [s.split(' (')[0]]: the text before the first occurrence of [" ("],
    the whole of [s] when there is none. *)
Fixpoint beforeParen (s : string) : string :=
  match s with
  | EmptyString => EmptyString
  | String c rest =>
      match rest with
      | String c' _ =>
          if Ascii.eqb c " " && Ascii.eqb c' "(" then EmptyString
          else String c (beforeParen rest)
      | EmptyString => String c EmptyString
      end
  end.

End Js.

Import Js.

(** ** Transcript store ([transcript] in interview.js) *)
Module Transcript.

(** One element of the [transcript] array. [question] is whatever was
    handed to [displayAIMessage]; [answer] is [null] ([None]) until the
    user's message is written into it. *)
Record Entry : Type := mkEntry {
  question : Value;
  answer : option string;
  timestamp : string
}.

Definition Store := list Entry.

(** The push of [displayAIMessage]: unconditional. *)
Definition appendQuestion (message : Value) (now : string) (t : Store) : Store :=
  t ++ [mkEntry message None now].

(** The update of [displayUserMessage]:
    [if (transcript.length > 0) transcript[transcript.length - 1].answer = message]. *)
Fixpoint recordAnswer (message : string) (t : Store) : Store :=
  match t with
  | [] => []
  | [e] => [mkEntry (question e) (Some message) (timestamp e)]
  | e :: rest => e :: recordAnswer message rest
  end.

Definition pending (e : Entry) : bool :=
  match answer e with None => true | Some _ => false end.

(** No two neighbouring entries are both unanswered. *)
Fixpoint noTwoPending (t : Store) : bool :=
  match t with
  | e1 :: ((e2 :: _) as rest) => negb (pending e1 && pending e2) && noTwoPending rest
  | _ => true
  end.

(** The last entry, if any, is still unanswered. *)
Fixpoint lastPending (t : Store) : bool :=
  match t with
  | [] => false
  | [e] => pending e
  | _ :: rest => lastPending rest
  end.

Inductive Op : Type :=
  | AppendQuestion (message : Value) (now : string)
  | RecordAnswer (message : string).

Definition apply (t : Store) (op : Op) : Store :=
  match op with
  | AppendQuestion m now => appendQuestion m now t
  | RecordAnswer m => recordAnswer m t
  end.

Definition run (t : Store) (ops : list Op) : Store := fold_left apply ops t.

(** Every [AppendQuestion] of [ops] meets a store whose last entry is
    answered (or an empty store). *)
Fixpoint alternating (t : Store) (ops : list Op) : bool :=
  match ops with
  | [] => true
  | op :: rest =>
      match op with
      | AppendQuestion _ _ => negb (lastPending t)
      | RecordAnswer _ => true
      end && alternating (apply t op) rest
  end.

End Transcript.

Import Transcript.

(** ** Session controller (interview.js) *)
Module Interview.

(** [interviewConfig]: the fields the page reads. [selectedSkillName] and
    [selectedSkillDescription] are optional properties. *)
Record Config : Type := mkConfig {
  role : string;
  seniority : string;
  skills : list string;
  selectedSkillName : option string;
  selectedSkillDescription : option string
}.

(** The body of a [fetch] the page issues. *)
Inductive Request : Type :=
  | StartInterview (role seniority : string) (skills : list string)
      (skill_name skill_description : string) (full_skill_text : option string)
  | SubmitAnswer (session_id : Value) (answer : string).

(** What a [fetch] followed by [response.json()] comes to. *)
Inductive FetchResult : Type :=
  | FetchRejected
  | HttpNotOk (status : nat) (errorText : string)
  | HttpOkBadJson
  | HttpOkJson (data : Value).

(** The exceptions of the two async functions, by the place that throws. *)
Inductive Exn : Type :=
  | NetworkFailure
  | ServerResponded (status : nat) (errorText : string)
  | JsonSyntaxError
  | EmptyResponse          (* 'Empty response from server' *)
  | MissingSessionIdField  (* 'Server response missing session_id field' *)
  | NoSessionIdReceived    (* 'Failed to start interview - no session ID received' *)
  | NoActiveSession        (* 'No active session' *)
  | TypeError.

(** The children of [#chat-messages], without their clock text. *)
Inductive ChatMessage : Type :=
  | AIBubble (message : Value)
  | UserBubble (message : string)
  | ErrorBubble (message : string)
  | CompletionCard (details : list (string * Value)).

(** The module-level variables of the page and the parts of the document
    and of [sessionStorage] it writes, plus the fetches that have not been
    answered yet. The timer and [interviewId] are written but never read by
    the functions below and are left out. *)
Record State : Type := mkState {
  interviewConfig : option Config;
  sessionId : Value;
  transcript : Store;
  isWaitingForAI : bool;
  chat : list ChatMessage;
  status : string;
  loading : bool;
  inputDisabled : bool;
  saved : option (Store * option Config);
  inFlight : list Request
}.

Definition init (config : option Config) : State :=
  mkState config VNull [] false [] "" false false None [].

Definition setSessionId (v : Value) (st : State) : State :=
  mkState (interviewConfig st) v (transcript st) (isWaitingForAI st) (chat st)
          (status st) (loading st) (inputDisabled st) (saved st) (inFlight st).

Definition setTranscript (t : Store) (st : State) : State :=
  mkState (interviewConfig st) (sessionId st) t (isWaitingForAI st) (chat st)
          (status st) (loading st) (inputDisabled st) (saved st) (inFlight st).

Definition setChat (c : list ChatMessage) (st : State) : State :=
  mkState (interviewConfig st) (sessionId st) (transcript st) (isWaitingForAI st) c
          (status st) (loading st) (inputDisabled st) (saved st) (inFlight st).

Definition setSaved (s : option (Store * option Config)) (st : State) : State :=
  mkState (interviewConfig st) (sessionId st) (transcript st) (isWaitingForAI st) (chat st)
          (status st) (loading st) (inputDisabled st) s (inFlight st).

Definition setInFlight (l : list Request) (st : State) : State :=
  mkState (interviewConfig st) (sessionId st) (transcript st) (isWaitingForAI st) (chat st)
          (status st) (loading st) (inputDisabled st) (saved st) l.

Definition updateStatus (s : string) (st : State) : State :=
  mkState (interviewConfig st) (sessionId st) (transcript st) (isWaitingForAI st) (chat st)
          s (loading st) (inputDisabled st) (saved st) (inFlight st).

Definition showLoadingState (show : bool) (st : State) : State :=
  mkState (interviewConfig st) (sessionId st) (transcript st) (isWaitingForAI st) (chat st)
          (status st) show (inputDisabled st) (saved st) (inFlight st).

Definition enableInput (st : State) : State :=
  mkState (interviewConfig st) (sessionId st) (transcript st) false (chat st)
          (status st) (loading st) false (saved st) (inFlight st).

Definition disableInput (st : State) : State :=
  mkState (interviewConfig st) (sessionId st) (transcript st) true (chat st)
          (status st) (loading st) true (saved st) (inFlight st).

Definition displayAIMessage (message : Value) (now : string) (st : State) : State :=
  setTranscript (appendQuestion message now (transcript st))
    (setChat (chat st ++ [AIBubble message]) st).

Definition displayUserMessage (message : string) (st : State) : State :=
  setTranscript (recordAnswer message (transcript st))
    (setChat (chat st ++ [UserBubble message]) st).

Definition displayErrorMessage (message : string) (st : State) : State :=
  setChat (chat st ++ [ErrorBubble message]) st.

(** [v.k] where [v] is known not to be [null]. *)
Definition prop (v : Value) (k : string) : Value :=
  match get v k with Some x => x | None => VUndefined end.

(** [a || b] on an optional string property. *)
Definition orElse (a : option string) (b : string) : string :=
  match a with
  | Some s => if String.eqb s "" then b else s
  | None => b
  end.

(** The request body of [startOrchestratorInterview]. With no
    [selectedSkillName] and no skill, [skills[0].split] throws. *)
Definition startRequest (c : Config) : Exn + Request :=
  let first := hd_error (skills c) in
  let name :=
    match selectedSkillName c with
    | Some s => if String.eqb s "" then option_map beforeParen first else Some s
    | None => option_map beforeParen first
    end in
  match name with
  | None => inl TypeError
  | Some n =>
      inr (StartInterview (role c) (seniority c) (skills c) n
             (orElse (selectedSkillDescription c) "") first)
  end.

(** [startOrchestratorInterview] from the answer of the fetch on. *)
Definition startOrchestratorInterview (r : FetchResult) : Exn + Value :=
  match r with
  | FetchRejected => inl NetworkFailure
  | HttpNotOk s t => inl (ServerResponded s t)
  | HttpOkBadJson => inl JsonSyntaxError
  | HttpOkJson data =>
      if negb (truthy data) then inl EmptyResponse
      else if negb (truthy (prop data "session_id")) then inl MissingSessionIdField
      else inr data
  end.

(** The [catch] and [finally] of [startInterview]. *)
Definition startFailed (st : State) : State :=
  showLoadingState false
    (updateStatus "Error starting interview"
       (displayErrorMessage "Could not start the interview. Please try again." st)).

Definition fallbackQuestion (skill : string) : string :=
  ("Let's start with your first question. Can you tell me about your experience with "
   ++ beforeParen skill ++ "?")%string.
Arguments fallbackQuestion : simpl never.

(** [startInterview] up to the fetch. *)
Definition startInterview_begin (c : Config) (st : State) : State :=
  let st := updateStatus "Starting interview..." (showLoadingState true st) in
  match startRequest c with
  | inl _ => startFailed st
  | inr req => setInFlight (inFlight st ++ [req]) st
  end.

(** [startInterview] from the answer of the fetch on. *)
Definition startInterview_resume (r : FetchResult) (now : string) (st : State) : State :=
  match startOrchestratorInterview r with
  | inl _ => startFailed st
  | inr response =>
      if truthy response && truthy (prop response "session_id") then
        let st := setSessionId (prop response "session_id") st in
        if truthy (prop response "opening_statement") then
          showLoadingState false
            (enableInput
               (updateStatus "Ready for your answer"
                  (displayAIMessage (prop response "opening_statement") now st)))
        else
          match option_map skills (interviewConfig st) with
          | Some (skill :: _) =>
              showLoadingState false
                (enableInput
                   (updateStatus "Ready for your answer"
                      (displayAIMessage (VStr (fallbackQuestion skill)) now st)))
          | _ => startFailed st
          end
      else startFailed st
  end.

(** [handleBeginInterview]: [showInterviewInterface], then
    [initializeInterview], which does nothing without a configuration. *)
Definition handleBeginInterview (st : State) : State :=
  let st := updateStatus "Starting interview..." (setChat [] st) in
  match interviewConfig st with
  | None => st
  | Some c => startInterview_begin c st
  end.

(** The three-way branch of [submitAnswer] on the answer of the service.
    [None]: the body is [null], reading [data.interview_completed] throws. *)
Inductive Detection : Type := Completed | Continue | AmbiguousCompleted.

Definition completionDetector (data : Value) : option Detection :=
  match get data "interview_completed" with
  | None => None
  | Some flag =>
      if truthy flag then Some Completed
      else if truthy (prop data "success") && truthy (prop data "next_question")
           then Some Continue
           else Some AmbiguousCompleted
  end.

(** The lines of [completionDetails]: one per truthy field. *)
Definition completionDetails (data : Value) : list (string * Value) :=
  filter (fun d => truthy (snd d))
    [("Completion Assessment", prop data "completion_reason");
     ("Coverage Achieved", prop data "evidence_summary");
     ("Assessment Coverage", prop data "coverage_percentage")].

Definition handleInterviewCompletion (data : Value) (st : State) : State :=
  let st := setChat (chat st ++ [CompletionCard (completionDetails data)]) st in
  let st := disableInput (updateStatus "Interview complete - Ready for evaluation" st) in
  setSaved (Some (transcript st, interviewConfig st)) st.

(** [submitAnswer] from the answer of the fetch on: the state it leaves and
    the exception it ends with, if any. *)
Definition submitAnswer_resume (r : FetchResult) (now : string) (st : State)
  : State * option Exn :=
  match r with
  | FetchRejected => (st, Some NetworkFailure)
  | HttpNotOk s t => (st, Some (ServerResponded s t))
  | HttpOkBadJson => (st, Some JsonSyntaxError)
  | HttpOkJson data =>
      match completionDetector data with
      | None => (st, Some TypeError)
      | Some Completed =>
          (handleInterviewCompletion data
             (displayAIMessage (prop data "next_question") now st), None)
      | Some Continue =>
          (enableInput
             (updateStatus "Ready for your answer"
                (displayAIMessage (prop data "next_question") now st)), None)
      | Some AmbiguousCompleted => (handleInterviewCompletion data st, None)
      end
  end.

(** The [catch] and [finally] of [handleSendMessage]. *)
Definition submitFailed (st : State) : State :=
  showLoadingState false
    (enableInput
       (updateStatus "Error submitting answer"
          (displayErrorMessage "Failed to submit your answer. Please try again." st))).

(** [handleSendMessage] up to the fetch of [submitAnswer]; [inputValue] is
    the content of the input box. Without a session [submitAnswer] throws
    before it fetches. *)
Definition handleSendMessage_begin (inputValue : string) (st : State) : State :=
  let message := trim inputValue in
  if String.eqb message "" || isWaitingForAI st then st
  else
    let st := displayUserMessage message st in
    let st := updateStatus "AI is analyzing your response..."
                (showLoadingState true (disableInput st)) in
    if negb (truthy (sessionId st)) then submitFailed st
    else setInFlight (inFlight st ++ [SubmitAnswer (sessionId st) message]) st.

(** [handleSendMessage] from the answer of the fetch on. *)
Definition handleSendMessage_resume (r : FetchResult) (now : string) (st : State) : State :=
  match submitAnswer_resume r now st with
  | (st', None) => showLoadingState false st'
  | (st', Some _) => submitFailed st'
  end.

(** *** The page as an event loop *)

Inductive Event : Type :=
  | BeginInterview
  | StartResponse (r : FetchResult) (now : string)
  | SendMessage (inputValue : string)
  | SubmitResponse (r : FetchResult) (now : string).

Definition isStart (q : Request) : bool :=
  match q with StartInterview _ _ _ _ _ _ => true | SubmitAnswer _ _ => false end.

Definition isSubmit (q : Request) : bool := negb (isStart q).

(** Takes the oldest pending request of one kind out of [l]. *)
Fixpoint answer1 (kind : Request -> bool) (l : list Request) : option (list Request) :=
  match l with
  | [] => None
  | q :: rest =>
      if kind q then Some rest
      else option_map (cons q) (answer1 kind rest)
  end.

(** A response is an event only while its request is pending. *)
Definition step (st : State) (ev : Event) : State :=
  match ev with
  | BeginInterview => handleBeginInterview st
  | SendMessage v => handleSendMessage_begin v st
  | StartResponse r now =>
      match answer1 isStart (inFlight st) with
      | Some l => startInterview_resume r now (setInFlight l st)
      | None => st
      end
  | SubmitResponse r now =>
      match answer1 isSubmit (inFlight st) with
      | Some l => handleSendMessage_resume r now (setInFlight l st)
      | None => st
      end
  end.

Definition runEvents (st : State) (trace : list Event) : State :=
  fold_left step trace st.

(** The phase of the specification, read off the status line: each
    [updateStatus] text of the page marks one phase, any other text is the
    page before [handleBeginInterview]. *)
Inductive Phase : Type :=
  | NotStarted | Starting | AwaitingAnswer | Submitting | PhaseCompleted | PhaseError.

Definition phaseOfStatus (s : string) : Phase :=
  if String.eqb s "Starting interview..." then Starting
  else if String.eqb s "Ready for your answer" then AwaitingAnswer
  else if String.eqb s "AI is analyzing your response..." then Submitting
  else if String.eqb s "Interview complete - Ready for evaluation" then PhaseCompleted
  else if String.eqb s "Error starting interview" || String.eqb s "Error submitting answer"
       then PhaseError
       else NotStarted.

Definition phaseOf (st : State) : Phase := phaseOfStatus (status st).

(** The begin button is pressed at most once in [trace] ([begun]: it has
    been pressed before): [showInterviewInterface] hides the summary that
    holds it. *)
Fixpoint singleBegin (begun : bool) (trace : list Event) : bool :=
  match trace with
  | [] => true
  | BeginInterview :: rest => negb begun && singleBegin true rest
  | _ :: rest => singleBegin begun rest
  end.

(** What the pending fetches say about the rest of the state. *)
Definition pendingOk (begun : bool) (st : State) : Prop :=
  match inFlight st with
  | [] => begun = false -> truthy (sessionId st) = false /\ transcript st = []
  | [StartInterview _ _ _ _ _ _] =>
      begun = true /\ truthy (sessionId st) = false /\ transcript st = []
  | [SubmitAnswer _ _] =>
      begun = true /\ isWaitingForAI st = true /\ lastPending (transcript st) = false
  | _ => False
  end.

(** The invariant of a session. *)
Record Inv (begun : bool) (st : State) : Prop := mkInv {
  inv_transcript : noTwoPending (transcript st) = true;
  inv_phase : phaseOf st = Submitting \/ phaseOf st = PhaseCompleted ->
              isWaitingForAI st = true;
  inv_pending : pendingOk begun st
}.

End Interview.

(** ** The other copy of the interview page

    The repository holds a second copy of the interview page. Its
    [displayAIMessage], [handleSendMessage] and [submitAnswer] are those of
    [Interview]; its [displayUserMessage] makes the same update of the
    transcript; its [startInterview] differs in the branch without an
    opening statement, which shows an error and returns. *)
Module InterviewRev.
Import Interview.

Definition startInterview_resume (r : FetchResult) (now : string) (st : State) : State :=
  match startOrchestratorInterview r with
  | inl _ => startFailed st
  | inr response =>
      if truthy response && truthy (prop response "session_id") then
        let st := setSessionId (prop response "session_id") st in
        if truthy (prop response "opening_statement") then
          showLoadingState false
            (enableInput
               (updateStatus "Ready for your answer"
                  (displayAIMessage (prop response "opening_statement") now st)))
        else
          showLoadingState false
            (displayErrorMessage
               "Failed to receive the opening statement. Please try again." st)
      else startFailed st
  end.

End InterviewRev.

(** ** Evaluation payloads *)

(** A property of a JSON payload: absent ([undefined]), [null] or there. *)
Inductive Optional (A : Type) : Type :=
  | Absent
  | Null
  | Present (a : A).
Arguments Absent {A}.
Arguments Null {A}.
Arguments Present {A} a.

(** ** The order of the keys of an object

    [Object.keys] and [Object.entries] list the names that are array
    indices first, in ascending order, and then the other names in the
    order in which they were added, which for a parsed object is the order
    of the text. The names of a parsed object are distinct. *)
Module Keys.

Definition digit (c : ascii) : option N :=
  let n := N_of_ascii c in
  if N.leb 48 n && N.leb n 57 then Some (N.sub n 48) else None.

(** The number a text of digits stands for, after [acc]. *)
Fixpoint digits (acc : N) (s : string) : option N :=
  match s with
  | EmptyString => Some acc
  | String c rest =>
      match digit c with
      | Some d => digits (N.add (N.mul 10 acc) d) rest
      | None => None
      end
  end.

(** An array index: the canonical decimal text of an integer from 0 to
    2^32 - 2, so without a leading zero. *)
Definition arrayIndex (k : string) : option N :=
  match k with
  | EmptyString => None
  | String c rest =>
      if Ascii.eqb c "0" && negb (String.eqb rest "") then None
      else match digits 0 k with
           | Some n => if N.leb n 4294967294 then Some n else None
           | None => None
           end
  end.

(** Puts the entry with index [n] into a list that ascends. *)
Fixpoint insertByIndex {A : Type} (n : N) (e : string * A)
    (l : list (N * (string * A))) : list (N * (string * A)) :=
  match l with
  | [] => [(n, e)]
  | (m, e') :: rest =>
      if N.ltb n m then (n, e) :: l else (m, e') :: insertByIndex n e rest
  end.

(** The entries whose name is an array index, ascending. *)
Fixpoint indexed {A : Type} (props : list (string * A)) : list (N * (string * A)) :=
  match props with
  | [] => []
  | e :: rest =>
      match arrayIndex (fst e) with
      | Some n => insertByIndex n e (indexed rest)
      | None => indexed rest
      end
  end.

(** The entries whose name is not an array index, as they come. *)
Definition named {A : Type} (props : list (string * A)) : list (string * A) :=
  filter (fun e => match arrayIndex (fst e) with None => true | Some _ => false end)
         props.

(** The entries of an object in the order of [Object.entries]. *)
Definition ownEntries {A : Type} (props : list (string * A)) : list (string * A) :=
  map snd (indexed props) ++ named props.

End Keys.

(** ** Performance dashboard (feedback.js) *)
Module Dashboard.

Record DimensionEvaluation : Type := mkDimension {
  rating : Optional Q;
  assessment : Optional string
}.

Record OverallAssessment : Type := mkOverall {
  overall_score : Optional Q;
  executive_summary : Optional string
}.

(** The enhanced, per-dimension answer of the evaluation service.
    [dimension_evaluations] lists the dimensions as the payload has
    them. *)
Record Payload : Type := mkPayload {
  overall_assessment : Optional OverallAssessment;
  dimension_evaluations : Optional (list (string * DimensionEvaluation))
}.

(** The text of [#score-value]: [`${score}/5`] or ['?']. *)
Inductive ScoreText : Type :=
  | OutOfFive (score : Q)
  | QuestionMark.

(** [#score-value], [#score-label] and whether they have been turned red,
    and the [scores] of the radar chart, if one was drawn. *)
Record View : Type := mkView {
  scoreValue : ScoreText;
  scoreLabel : string;
  scoreInRed : bool;
  radar : option (list Q)
}.

(** The chain of comparisons of [updateOverallScore]. The thresholds are
    halves, which binary floating point holds exactly. *)
Definition scoreLabelText (score : Q) : string :=
  if Qle_bool 4.5 score then "Outstanding Performance"
  else if Qle_bool 4.0 score then "Exceeds Expectations"
  else if Qle_bool 3.5 score then "Good Performance"
  else if Qle_bool 3.0 score then "Meets Expectations"
  else if Qle_bool 2.5 score then "Below Expectations"
  else "Needs Improvement".

Definition updateOverallScore (score : Q) (v : View) : View :=
  mkView (OutOfFive score) (scoreLabelText score) (scoreInRed v) (radar v).

Definition showScoreError (v : View) : View :=
  mkView QuestionMark "Could not calculate score" true (radar v).

(** [data.overall_assessment?.overall_score] *)
Definition overallScoreOf (data : Payload) : Optional Q :=
  match overall_assessment data with
  | Present oa => overall_score oa
  | _ => Absent
  end.

(** [rating || 0] *)
Definition ratingOrZero (d : DimensionEvaluation) : Q :=
  match rating d with
  | Present q => if Qeq_bool q 0 then 0%Q else q
  | _ => 0%Q
  end.

(** [scores]: one per name of [Object.keys(dimensionEvaluations)]. *)
Definition initializeDimensionRadarChart
    (dims : list (string * DimensionEvaluation)) (v : View) : View :=
  mkView (scoreValue v) (scoreLabel v) (scoreInRed v)
         (Some (map (fun d => ratingOrZero (snd d)) (Keys.ownEntries dims))).

(** The score and chart steps of [displayDashboard]. *)
Definition displayDashboard (data : Payload) (v : View) : View :=
  let v :=
    match overallScoreOf data with
    | Present score => updateOverallScore score v
    | _ => showScoreError v
    end in
  match dimension_evaluations data with
  | Present (d :: dims) => initializeDimensionRadarChart (d :: dims) v
  | _ => v
  end.

End Dashboard.

(** ** Legacy feedback page (flat score out of 100) *)
Module LegacyFeedback.

Record Payload : Type := mkPayload {
  overall_score : Optional Q;
  overall_feedback : Optional string
}.

(** The text of [#score-text] and the score class of [#overall-score]. *)
Record View : Type := mkView {
  scoreText : Q;
  scoreClass : string
}.

Definition updateOverallScore (score : Q) : View :=
  mkView score
    (if Qle_bool 90 score then "score-excellent"
     else if Qle_bool 75 score then "score-good"
     else if Qle_bool 60 score then "score-fair"
     else "score-poor").

(** [data.overall_score || 75] *)
Definition scoreOrDefault (data : Payload) : Q :=
  match overall_score data with
  | Present q => if Qeq_bool q 0 then 75%Q else q
  | _ => 75%Q
  end.

(** The score step of [displayFeedback]. *)
Definition displayFeedback (data : Payload) : View :=
  updateOverallScore (scoreOrDefault data).

End LegacyFeedback.

(** ** More text functions *)
Module Text.

(** [s] holds the separator [" ("] of [s.split(' (')]. *)
Fixpoint hasParen (s : string) : bool :=
  match s with
  | EmptyString => false
  | String c rest =>
      match rest with
      | String c' _ => (Ascii.eqb c " " && Ascii.eqb c' "(") || hasParen rest
      | EmptyString => false
      end
  end.

(** [\w] of a regular expression: an ASCII letter, a digit or [_]. *)
Definition isWordChar (c : ascii) : bool :=
  let n := nat_of_ascii c in
  ((48 <=? n) && (n <=? 57)) || ((65 <=? n) && (n <=? 90))
  || ((97 <=? n) && (n <=? 122)) || (n =? 95).

(** [toUpperCase] on a character that [\w] matches. *)
Definition upper (c : ascii) : ascii :=
  let n := nat_of_ascii c in
  if (97 <=? n) && (n <=? 122) then ascii_of_nat (n - 32) else c.

(** [s.replace(/_/g, ' ')] *)
Fixpoint underscoresToSpaces (s : string) : string :=
  match s with
  | EmptyString => EmptyString
  | String c rest =>
      String (if Ascii.eqb c "_" then " "%char else c) (underscoresToSpaces rest)
  end.

(** [s.replace(/\b\w/g, l => l.toUpperCase())]: a word character is put in
    upper case when no word character stands before it. [afterWord]: the
    character before the rest is a word character. *)
Fixpoint capitalizeWords (afterWord : bool) (s : string) : string :=
  match s with
  | EmptyString => EmptyString
  | String c rest =>
      String (if isWordChar c && negb afterWord then upper c else c)
             (capitalizeWords (isWordChar c) rest)
  end.

(** The display name of a dimension or category:
    [name.replace(/_/g, ' ').replace(/\b\w/g, l => l.toUpperCase())]. *)
Definition displayName (name : string) : string :=
  capitalizeWords false (underscoresToSpaces name).

(** [s] holds the character [c]. *)
Fixpoint hasChar (c : ascii) (s : string) : bool :=
  match s with
  | EmptyString => false
  | String c' rest => Ascii.eqb c' c || hasChar c rest
  end.

(** [s.split(sep)] for a separator of one character. *)
Fixpoint splitOn (sep : ascii) (s : string) : list string :=
  match s with
  | EmptyString => [EmptyString]
  | String c rest =>
      if Ascii.eqb c sep then EmptyString :: splitOn sep rest
      else match splitOn sep rest with
           | first :: others => String c first :: others
           | [] => [String c EmptyString]
           end
  end.

(** [s] begins with [p]. *)
Fixpoint startsWith (p s : string) : bool :=
  match p, s with
  | EmptyString, _ => true
  | String a p', String b s' => Ascii.eqb a b && startsWith p' s'
  | String _ _, EmptyString => false
  end.

(** [s] holds [p]. *)
Fixpoint contains (p s : string) : bool :=
  startsWith p s
  || match s with
     | EmptyString => false
     | String _ rest => contains p rest
     end.

Fixpoint dropChars (n : nat) (s : string) : string :=
  match n, s with
  | S n', String _ rest => dropChars n' rest
  | _, _ => s
  end.

(** [s.replace(p, '')] for a text [p] that is not empty: the first
    occurrence of [p] is taken out. *)
Fixpoint removeFirst (p s : string) : string :=
  if startsWith p s then dropChars (String.length p) s
  else match s with
       | EmptyString => EmptyString
       | String c rest => String c (removeFirst p rest)
       end.

(** A non-negative integer as JavaScript prints it. *)
Definition decimal (n : nat) : string :=
  DecimalString.NilZero.string_of_uint (Nat.to_uint n).

(** [s.padStart(2, '0')] *)
Definition padStart2 (s : string) : string :=
  match String.length s with
  | 0 => "00"
  | 1 => ("0" ++ s)%string
  | _ => s
  end.

End Text.

(** ** Session controller: the rest of the page and its invariants *)
Module Session.
Import Interview.

(** [isValidConfiguration], as the truth value of what it returns. *)
Definition isValidConfiguration (c : Config) : bool :=
  negb (String.eqb (role c) "")
  && negb (String.eqb (seniority c) "")
  && (0 <? List.length (skills c)).

(** [handleExitInterview]: the transcript and the configuration are stored
    and the page is left. *)
Definition handleExitInterview (st : State) : State :=
  setSaved (Some (transcript st, interviewConfig st)) st.

Definition isBegin (ev : Event) : bool :=
  match ev with BeginInterview => true | _ => false end.

(** The begin button has been pressed before or in [trace]. *)
Definition begunAfter (begun : bool) (trace : list Event) : bool :=
  begun || existsb isBegin trace.

(** What an entry shows of the interviewer's side. *)
Definition asked (t : Store) : list (Value * string) :=
  map (fun e => (question e, timestamp e)) t.

(** Every entry but the last has an answer. *)
Definition answeredButLast (t : Store) : bool :=
  forallb (fun e => negb (pending e)) (removelast t).

(** The answer of the last entry, if there is an entry. *)
Definition lastAnswer (t : Store) : option (option string) :=
  match rev t with
  | [] => None
  | e :: _ => Some (answer e)
  end.

(** What a pending submit request says about the state. *)
Definition requestOk (st : State) : Prop :=
  forall sid m,
    inFlight st = [SubmitAnswer sid m] ->
    sid = sessionId st /\ truthy sid = true /\ m <> ""
    /\ (transcript st = [] \/ lastAnswer (transcript st) = Some (Some m)).

(** The invariant of [Interview.Inv], extended. *)
Record Inv2 (begun : bool) (st : State) : Prop := mkInv2 {
  inv2_base : Inv begun st;
  inv2_answered : answeredButLast (transcript st) = true;
  inv2_request : requestOk st;
  inv2_completed : phaseOf st = PhaseCompleted -> inFlight st = [] /\ begun = true;
  inv2_saved : saved st = None
               \/ (phaseOf st = PhaseCompleted
                   /\ saved st = Some (transcript st, interviewConfig st))
}.

(** No session, nothing in flight, nothing asked. *)
Definition noSession (st : State) : Prop :=
  sessionId st = VNull /\ inFlight st = [] /\ transcript st = [].

(** The fetch of the start came to nothing: no answer, an HTTP error, a
    body that is not JSON, a falsy body, or no session id in it. *)
Definition startRefused (r : FetchResult) : bool :=
  match r with
  | HttpOkJson data => negb (truthy data) || negb (truthy (prop data "session_id"))
  | _ => true
  end.

(** The fetch of the submit came to nothing: no answer, an HTTP error, a
    body that is not JSON, or a [null] body. *)
Definition submitRefused (r : FetchResult) : bool :=
  match r with
  | HttpOkJson VNull | HttpOkJson VUndefined => true
  | HttpOkJson _ => false
  | _ => true
  end.

End Session.

(** ** Performance dashboard: loading, summary, cards (feedback.js) *)
Module Report.

(** [a || b] on an optional string property. *)
Definition strOr (a : Optional string) (b : string) : string :=
  match a with
  | Present s => if String.eqb s "" then b else s
  | _ => b
  end.

(** The truth value of an optional string property. *)
Definition present (a : Optional string) : bool :=
  match a with
  | Present s => negb (String.eqb s "")
  | _ => false
  end.

(** An item of [sessionStorage] as the page meets it: [getItem] gives
    [null] or the empty string, or a text that [JSON.parse] rejects, or a
    text that parses. *)
Inductive Item (A : Type) : Type :=
  | NoItem
  | Malformed
  | Stored (a : A).
Arguments NoItem {A}.
Arguments Malformed {A}.
Arguments Stored {A} a.

Record Evaluation : Type := mkEvaluation {
  overall_score : Optional Q;
  ideal_response : Optional string;
  overall_feedback : Optional string
}.

(** An element of the stored transcript. *)
Record Turn : Type := mkTurn {
  question : Optional string;
  answer : Optional string;
  evaluation : Optional Evaluation
}.

(** The stored configuration, with the fields this page reads. *)
Record Config : Type := mkConfig {
  role : Optional string;
  seniority : Optional string;
  skills : Optional (list string);
  skill : Optional string;
  duration : Optional nat;
  durationFormatted : Optional string
}.

Record Request : Type := mkRequest {
  req_role : string;
  req_seniority : string;
  req_skills : list string;
  req_transcript : list Turn
}.

(** How the page ends up after [DOMContentLoaded]. *)
Inductive Outcome : Type :=
  | Redirected                (* [validatePageAccess]: to the home page *)
  | ErrorScreen               (* [loadInterviewData]: the [catch] *)
  | Idle                      (* [loadInterviewData] returns, nothing is shown *)
  | Requested (r : Request).  (* [generateEvaluation] sends [r] *)

(** [interviewConfig.skills || [interviewConfig.skill || "General"]] *)
Definition requestSkills (c : Config) : list string :=
  match skills c with
  | Present l => l
  | _ => [strOr (skill c) "General"]
  end.

(** [validatePageAccess], [loadInterviewData] and the request of
    [generateEvaluation]. The parsed values are [null] ([None]) or an
    array, resp. an object. *)
Definition pageLoad (transcriptItem : Item (option (list Turn)))
    (configItem : Item (option Config)) : Outcome :=
  match transcriptItem, configItem with
  | NoItem, _ | _, NoItem => Redirected
  | Malformed, _ | _, Malformed => ErrorScreen
  | Stored t, Stored c =>
      match t with
      | None | Some [] => Idle
      | Some turns =>
          match c with
          | None => Idle
          | Some c =>
              if negb (present (role c)) || negb (present (seniority c)) then Idle
              else Requested (mkRequest (strOr (role c) "") (strOr (seniority c) "")
                                (requestSkills c) turns)
          end
      end
  end.

(** [#executive-summary-text]: its text and whether it is in red. *)
Definition updateExecutiveSummary (executiveSummary : Optional string)
    (old : string * bool) : string * bool :=
  match executiveSummary with
  | Present s => if String.eqb s "" then ("No executive summary available.", true)
                 else (s, snd old)
  | _ => ("No executive summary available.", true)
  end.

(** The card of [createQAAnalysis]. *)
Record QACard : Type := mkQACard {
  number : nat;
  cardQuestion : string;
  cardAnswer : string;
  cardScore : Q;
  cardFeedback : option string;
  cardIdeal : option string
}.

Definition shown (a : Optional string) : option string :=
  match a with
  | Present s => if String.eqb s "" then None else Some s
  | _ => None
  end.

(** [evaluation.overall_score || 0] with [evaluation = item.evaluation || {}] *)
Definition turnScore (t : Turn) : Q :=
  match evaluation t with
  | Present ev =>
      match overall_score ev with
      | Present q => if Qeq_bool q 0 then 0%Q else q
      | _ => 0%Q
      end
  | _ => 0%Q
  end.

Definition turnText (f : Evaluation -> Optional string) (t : Turn) : option string :=
  match evaluation t with
  | Present ev => shown (f ev)
  | _ => None
  end.

Definition createQAAnalysis (item : Turn) (questionNumber : nat) : QACard :=
  mkQACard questionNumber (strOr (question item) "") (strOr (answer item) "")
    (turnScore item) (turnText overall_feedback item) (turnText ideal_response item).

(** [item.question && item.answer] *)
Definition answeredTurn (item : Turn) : bool :=
  present (question item) && present (answer item).

(** The loop of [generateEnhancedTranscript], from index [index] on. *)
Fixpoint qaCards (index : nat) (items : list Turn) : list QACard :=
  match items with
  | [] => []
  | item :: rest =>
      if answeredTurn item
      then createQAAnalysis item (index + 1) :: qaCards (S index) rest
      else qaCards (S index) rest
  end.

(** [#transcript-content]: the placeholder or the cards. *)
Definition generateEnhancedTranscript (interviewTranscript : option (list Turn))
  : option (list QACard) :=
  match interviewTranscript with
  | None | Some [] => None
  | Some items => Some (qaCards 0 items)
  end.

(** An action item of the payload, with the fields shown on its card. *)
Record ActionItem : Type := mkActionItem {
  title : Optional string;
  priority : Optional string;
  category : Optional string;
  evidence : Optional (list string)
}.

(** The card of [createSmartActionItemCard]: the title, the texts of the
    two badges, the index of the evidence toggle and the number of evidence
    quotes, if the evidence section is there. The colour classes, the
    [data-] attributes and the optional paragraphs are left out. *)
Record ActionCard : Type := mkActionCard {
  cardTitle : Optional string;
  priorityText : string;
  categoryText : string;
  toggleIndex : nat;
  evidenceCount : option nat
}.

Definition createSmartActionItemCard (item : ActionItem) (index : nat) : ActionCard :=
  mkActionCard (title item)
    (strOr (priority item) "Medium") (strOr (category item) "General")
    index
    (match evidence item with
     | Present (q :: qs) => Some (List.length (q :: qs))
     | _ => None
     end).

Fixpoint actionCards (index : nat) (items : list ActionItem) : list ActionCard :=
  match items with
  | [] => []
  | item :: rest => createSmartActionItemCard item index :: actionCards (S index) rest
  end.

(** [#action-items-list]: the placeholder ([None]) or the cards. *)
Definition generateActionItems (action_items : Optional (list ActionItem))
  : option (list ActionCard) :=
  match action_items with
  | Present (item :: rest) => Some (actionCards 0 (item :: rest))
  | _ => None
  end.

End Report.

(** ** Durations (the other copy of the interview page, feedback.js) *)
Module Duration.
Import Text.

(** [formatDuration(seconds)] *)
Definition formatDuration (seconds : nat) : string :=
  (decimal (seconds / 60) ++ ":" ++ padStart2 (decimal (seconds mod 60)))%string.

(** The text [updateDurationDisplay] writes into [#session-duration]. *)
Definition updateDurationDisplay (c : Report.Config) : string :=
  if Report.present (Report.durationFormatted c)
  then Report.strOr (Report.durationFormatted c) ""
  else match Report.duration c with
       | Present (S d) =>
           (decimal (S d / 60) ++ ":" ++ padStart2 (decimal (S d mod 60)))%string
       | _ => "N/A"
       end.

End Duration.

(** ** Shared utilities (utils.js) *)
Module Utils.
Import Text.

Record Config : Type := mkConfig {
  role : Optional string;
  seniority : Optional string;
  skills : Optional (list string)
}.

Definition errorIf (b : bool) (message : string) : list string :=
  if b then [message] else [].

(** The [errors] of [Validation.validateInterviewConfig]. *)
Definition validateInterviewConfig (config : Config) : list string :=
  errorIf (negb (Report.present (role config))) "Role is required"
  ++ errorIf (negb (Report.present (seniority config))) "Experience level is required"
  ++ errorIf (match skills config with
              | Present (_ :: _) => false
              | _ => true
              end) "At least one skill must be selected"
  ++ errorIf (match skills config with
              | Present (_ :: _ :: _) => true
              | _ => false
              end) "Only one skill can be selected".

(** Its [isValid]: [errors.length === 0]. *)
Definition isValid (config : Config) : bool :=
  match validateInterviewConfig config with [] => true | _ => false end.

(** [Navigation.getCurrentPage] on [window.location.pathname]. *)
Definition getCurrentPage (pathname : string) : string :=
  let filename := last (splitOn "/" pathname) "" in
  let page := removeFirst ".html" filename in
  if String.eqb page "" then "index" else page.

End Utils.

(** ** Sample inputs

    A configuration, the opening answer of the service, and the page once
    the service has opened the session. *)
Definition sampleConfig : Interview.Config :=
  Interview.mkConfig "Product Manager" "Senior" ["Product Sense (user empathy)"] None None.

Definition sampleOpening : Value :=
  VObj [("session_id", VStr "abc123"); ("opening_statement", VStr "Tell me about...")].

Definition sampleStarted : Interview.State :=
  Interview.runEvents (Interview.init (Some sampleConfig))
    [Interview.BeginInterview;
     Interview.StartResponse (Interview.HttpOkJson sampleOpening) "09:00"].

(** * Properties *)

(** ** Transcript store *)
Module TranscriptFacts.

Lemma lastPending_app (t : Store) (e : Entry) :
  lastPending (t ++ [e]) = pending e.
Proof.
  induction t as [|a t IH]; [reflexivity|].
  destruct t as [|b t]; [reflexivity|].
  exact IH.
Qed.

Lemma noTwoPending_app (t : Store) (e : Entry) :
  noTwoPending (t ++ [e]) = noTwoPending t && negb (lastPending t && pending e).
Proof.
  induction t as [|a t IH]; [reflexivity|].
  destruct t as [|b t].
  - cbn. now rewrite andb_true_r.
  - change (noTwoPending ((a :: b :: t) ++ [e]))
      with (negb (pending a && pending b) && noTwoPending ((b :: t) ++ [e])).
    rewrite IH.
    change (noTwoPending (a :: b :: t))
      with (negb (pending a && pending b) && noTwoPending (b :: t)).
    change (lastPending (a :: b :: t)) with (lastPending (b :: t)).
    now rewrite andb_assoc.
Qed.

Lemma recordAnswer_app (m : string) (t : Store) (e : Entry) :
  recordAnswer m (t ++ [e]) = t ++ [mkEntry (question e) (Some m) (timestamp e)].
Proof.
  induction t as [|a t IH]; [reflexivity|].
  cbn [app recordAnswer]. rewrite IH.
  destruct t; reflexivity.
Qed.

(** Every store is empty or ends with an entry. *)
Lemma store_cases (t : Store) : t = [] \/ exists t' e, t = t' ++ [e].
Proof.
  destruct t as [|a t]; [now left | right].
  destruct (exists_last (l := a :: t)) as (t' & e & ->); [discriminate|].
  now exists t', e.
Qed.

Lemma recordAnswer_lastPending (m : string) (t : Store) :
  lastPending (recordAnswer m t) = false.
Proof.
  destruct (store_cases t) as [-> | (t' & e & ->)]; [reflexivity|].
  now rewrite recordAnswer_app, lastPending_app.
Qed.

Lemma recordAnswer_noTwoPending (m : string) (t : Store) :
  noTwoPending t = true -> noTwoPending (recordAnswer m t) = true.
Proof.
  destruct (store_cases t) as [-> | (t' & e & ->)]; [reflexivity|].
  rewrite recordAnswer_app, !noTwoPending_app.
  intros H. apply andb_true_iff in H as [H _]. rewrite H.
  cbn. now rewrite andb_false_r.
Qed.

Lemma appendQuestion_noTwoPending (q : Value) (now : string) (t : Store) :
  noTwoPending t = true -> lastPending t = false ->
  noTwoPending (appendQuestion q now t) = true.
Proof.
  intros H L. unfold appendQuestion.
  now rewrite noTwoPending_app, H, L.
Qed.

Lemma alternating_run (ops : list Op) :
  forall t, noTwoPending t = true -> alternating t ops = true ->
            noTwoPending (run t ops) = true.
Proof.
  induction ops as [|op ops IH]; intros t Ht Halt; [exact Ht|].
  cbn in Halt. apply andb_true_iff in Halt as [Hop Hrest].
  apply (IH (apply t op)); [|exact Hrest].
  destruct op as [q now | m]; cbn.
  - apply appendQuestion_noTwoPending; [exact Ht|].
    now apply negb_true_iff.
  - now apply recordAnswer_noTwoPending.
Qed.

End TranscriptFacts.

(** ** Session controller *)
Module InterviewFacts.
Import Interview TranscriptFacts.

Lemma startRequest_isStart (c : Config) (req : Request) :
  startRequest c = inr req -> isStart req = true.
Proof.
  unfold startRequest.
  destruct (match selectedSkillName c with
            | Some s => if String.eqb s "" then option_map beforeParen (hd_error (skills c)) else Some s
            | None => option_map beforeParen (hd_error (skills c))
            end); [|discriminate].
  intros [= <-]. reflexivity.
Qed.

Lemma answer1_last (kind : Request -> bool) (l : list Request) (q : Request) :
  kind q = true -> exists l', answer1 kind (l ++ [q]) = Some l'.
Proof.
  intros Hq. induction l as [|a l (l' & IH)]; cbn.
  - rewrite Hq. now exists [].
  - destruct (kind a); [now eexists|].
    rewrite IH. now eexists.
Qed.

Ltac phase_contra :=
  match goal with
  | H : _ \/ _ |- _ => destruct H as [H | H]; discriminate H
  end.

Lemma begin_Inv (st : State) :
  Inv false st -> Inv true (handleBeginInterview st).
Proof.
  intros [Ht Hp Hq]. unfold pendingOk in Hq.
  destruct (inFlight st) as [|[] [|]] eqn:Hfl; try (now destruct Hq); try contradiction.
  destruct (Hq eq_refl) as [Hsid Htr].
  unfold handleBeginInterview. cbn.
  destruct (interviewConfig st) as [c|].
  - unfold startInterview_begin.
    destruct (startRequest c) as [e|req] eqn:Hreq; cbn.
    + split; cbn; [exact Ht | intros; phase_contra |].
      unfold pendingOk; cbn. rewrite Hfl. discriminate.
    + apply startRequest_isStart in Hreq.
      split; cbn; [exact Ht | intros; phase_contra |].
      unfold pendingOk; cbn. rewrite Hfl. cbn.
      destruct req; [auto | discriminate].
  - split; cbn; [exact Ht | intros; phase_contra |].
    unfold pendingOk; cbn. rewrite Hfl. discriminate.
Qed.

Lemma send_Inv (b : bool) (v : string) (st : State) :
  Inv b st -> Inv b (handleSendMessage_begin v st).
Proof.
  intros [Ht Hp Hq]. unfold handleSendMessage_begin.
  destruct (String.eqb (trim v) "" || isWaitingForAI st) eqn:Hguard; [now split|].
  apply orb_false_iff in Hguard as [_ Hw].
  cbn. destruct (truthy (sessionId st)) eqn:Hsid; cbn.
  - (* the answer is sent *)
    split; cbn; [now apply recordAnswer_noTwoPending | reflexivity |].
    unfold pendingOk in *; cbn.
    destruct (inFlight st) as [|[] [|]]; cbn; try contradiction.
    + rewrite recordAnswer_lastPending. destruct b; [auto|].
      destruct (Hq eq_refl); congruence.
    + destruct Hq as (_ & Hq & _); congruence.
    + destruct Hq as (_ & Hq & _); congruence.
  - (* no session: [submitAnswer] throws *)
    split; cbn; [now apply recordAnswer_noTwoPending | intros; phase_contra |].
    unfold pendingOk in *; cbn.
    destruct (inFlight st) as [|[] [|]]; cbn; try contradiction.
    + intros Hb. destruct (Hq Hb) as [_ ->]. now split.
    + destruct Hq as (Hb & _ & ->). now repeat split.
    + destruct Hq as (_ & Hq & _); congruence.
Qed.

Lemma startResponse_Inv (b : bool) (r : FetchResult) (now : string) (st : State) :
  Inv b st -> Inv b (step st (StartResponse r now)).
Proof.
  intros [Ht Hp Hq]. unfold pendingOk in Hq. cbn.
  destruct (inFlight st) as [|[] [|]] eqn:Hfl; cbn; try contradiction;
    try (split; [exact Ht | exact Hp | unfold pendingOk; now rewrite Hfl]).
  destruct Hq as (-> & Hsid & Htr).
  assert (Hfail : forall st', transcript st' = [] -> inFlight st' = [] ->
                              Inv true (startFailed st')).
  { intros st' H1 H2. split; cbn; [now rewrite H1 | intros; phase_contra |].
    unfold pendingOk; cbn. rewrite H2. discriminate. }
  unfold startInterview_resume.
  destruct (startOrchestratorInterview r) as [e|response]; [now apply Hfail|].
  destruct (truthy response && truthy (prop response "session_id")); [|now apply Hfail].
  destruct (truthy (prop response "opening_statement")).
  - split; cbn; [now rewrite Htr | intros; phase_contra |].
    unfold pendingOk; cbn. discriminate.
  - cbn. destruct (interviewConfig st) as [c|]; cbn; [|now apply Hfail].
    destruct (skills c) as [|skill rest]; [now apply Hfail|].
    split; cbn; [now rewrite Htr | intros; phase_contra |].
    unfold pendingOk; cbn. discriminate.
Qed.

Lemma submitResponse_Inv (b : bool) (r : FetchResult) (now : string) (st : State) :
  Inv b st -> Inv b (step st (SubmitResponse r now)).
Proof.
  intros [Ht Hp Hq]. unfold pendingOk in Hq. cbn.
  destruct (inFlight st) as [|[] [|]] eqn:Hfl; cbn; try contradiction;
    try (split; [exact Ht | exact Hp | unfold pendingOk; now rewrite Hfl]).
  destruct Hq as (-> & Hw & Hlast).
  assert (Hfail : forall st', transcript st' = transcript st -> inFlight st' = [] ->
                              Inv true (submitFailed st')).
  { intros st' H1 H2. split; cbn; [now rewrite H1 | intros; phase_contra |].
    unfold pendingOk; cbn. rewrite H2. discriminate. }
  unfold handleSendMessage_resume, submitAnswer_resume.
  destruct r as [| s t | | data]; try now apply Hfail.
  destruct (completionDetector data) as [[| |]|]; [| | |now apply Hfail].
  - split; cbn; [now apply appendQuestion_noTwoPending | reflexivity |].
    unfold pendingOk; cbn. discriminate.
  - split; cbn; [now apply appendQuestion_noTwoPending | intros; phase_contra |].
    unfold pendingOk; cbn. discriminate.
  - split; cbn; [exact Ht | reflexivity |].
    unfold pendingOk; cbn. discriminate.
Qed.

Lemma init_Inv (config : option Config) : Inv false (init config).
Proof.
  split; cbn; [reflexivity | intros; phase_contra |].
  unfold pendingOk; cbn. now split.
Qed.

(** The invariant holds along every trace that begins the interview at
    most once. *)
Lemma runEvents_Inv (trace : list Event) :
  forall b st, Inv b st -> singleBegin b trace = true ->
               exists b', Inv b' (runEvents st trace).
Proof.
  induction trace as [|ev trace IH]; intros b st HI Hs; [now exists b|].
  destruct ev; cbn [singleBegin] in Hs; cbn [runEvents fold_left].
  - apply andb_true_iff in Hs as [Hb Hs]. apply negb_true_iff in Hb. subst b.
    apply (IH true); [|exact Hs]. now apply begin_Inv.
  - apply (IH b); [|exact Hs]. now apply startResponse_Inv.
  - apply (IH b); [|exact Hs]. now apply send_Inv.
  - apply (IH b); [|exact Hs]. now apply submitResponse_Inv.
Qed.

Lemma Inv_inFlight (b : bool) (st : State) : Inv b st -> List.length (inFlight st) <= 1.
Proof.
  intros [_ _ Hq]. unfold pendingOk in Hq.
  destruct (inFlight st) as [|q [|q' l]]; cbn; [lia | lia | ].
  destruct q; contradiction.
Qed.

End InterviewFacts.

(** * The claims of the specification *)

Import Interview TranscriptFacts InterviewFacts.

(** ** C1 *)

(** C1, as stated, fails: two [appendQuestion] in a row are both carried
    out, and the store then holds two neighbouring unanswered entries. *)
Lemma appendQuestion_twice_counterexample :
  run [] [AppendQuestion (VStr "Q1") "09:00"; AppendQuestion (VStr "Q2") "09:01"]
  = [mkEntry (VStr "Q1") None "09:00"; mkEntry (VStr "Q2") None "09:01"]
  /\ noTwoPending
       (run [] [AppendQuestion (VStr "Q1") "09:00"; AppendQuestion (VStr "Q2") "09:01"])
     = false.
Proof. split; reflexivity. Qed.

(** C1 (amended): [appendQuestion] never fails, it always appends an entry
    with [answer = null]. The store holds no two neighbouring unanswered
    entries after every sequence of operations in which each
    [appendQuestion] meets an empty store or an answered last entry, and in
    the transcript of the page after every sequence of events of a session
    that is begun once. *)
Theorem transcript_no_two_pending :
  (forall (q : Value) (now : string) (t : Store),
     appendQuestion q now t = t ++ [mkEntry q None now])
  /\ (forall (t : Store) (ops : list Op),
        noTwoPending t = true ->
        alternating t ops = true ->
        noTwoPending (run t ops) = true)
  /\ (forall (config : option Config) (trace : list Event),
        singleBegin false trace = true ->
        noTwoPending (transcript (runEvents (init config) trace)) = true).
Proof.
  split; [reflexivity | split].
  - intros t ops Ht Hops. now apply alternating_run.
  - intros config trace Htrace.
    destruct (runEvents_Inv trace false (init config) (init_Inv config) Htrace)
      as [b' HI].
    exact (inv_transcript _ _ HI).
Qed.

Lemma transcript_no_two_pending_witness :
  appendQuestion (VStr "Q2") "09:02" [mkEntry (VStr "Q1") (Some "A1") "09:00"]
  = [mkEntry (VStr "Q1") (Some "A1") "09:00"] ++ [mkEntry (VStr "Q2") None "09:02"]
  /\ noTwoPending
       (run [mkEntry (VStr "Q1") (Some "A1") "09:00"]
            [AppendQuestion (VStr "Q2") "09:02"; RecordAnswer "A2";
             AppendQuestion (VStr "Q3") "09:04"]) = true
  /\ noTwoPending
       (transcript
          (runEvents (init (Some sampleConfig))
             [BeginInterview; StartResponse (HttpOkJson sampleOpening) "09:00";
              SendMessage "I led..."])) = true.
Proof.
  destruct transcript_no_two_pending as (Happend & Hrun & Hpage).
  split; [apply Happend | split].
  - apply Hrun; reflexivity.
  - apply Hpage; reflexivity.
Defined.

(** ** C8 *)

(** C8, as stated, fails: [recordAnswer] overwrites an entry that is
    already answered, and on an empty transcript it does nothing and
    reports nothing. *)
Lemma recordAnswer_no_pending_counterexample :
  recordAnswer "second" [mkEntry (VStr "Q1") (Some "first") "09:00"]
  = [mkEntry (VStr "Q1") (Some "second") "09:00"]
  /\ recordAnswer "hello" [] = []
  /\ transcript (displayUserMessage "hello" (init None)) = [].
Proof. repeat split; reflexivity. Qed.

(** C8 (amended): on a transcript that is not empty [recordAnswer] sets
    the answer of the last entry, whether or not it was answered before,
    and changes nothing else; on an empty transcript it does nothing. It
    has no failure. *)
Theorem recordAnswer_sets_last (m : string) (t : Store) (e : Entry) :
  recordAnswer m (t ++ [e]) = t ++ [mkEntry (question e) (Some m) (timestamp e)]
  /\ recordAnswer m [] = [].
Proof. split; [apply recordAnswer_app | reflexivity]. Qed.

(** ** C2 *)

(** C2, as stated, fails in its second half: when the service opens the
    session without an opening statement, the page asks a first question of
    its own making. *)
Lemma fallback_question_counterexample :
  let st := runEvents (init (Some sampleConfig))
              [BeginInterview;
               StartResponse (HttpOkJson (VObj [("session_id", VStr "abc123")])) "09:00"] in
  transcript st
  = [mkEntry
       (VStr "Let's start with your first question. Can you tell me about your experience with Product Sense?")
       None "09:00"]
  /\ phaseOf st = AwaitingAnswer
  /\ prop (VObj [("session_id", VStr "abc123")]) "opening_statement" = VUndefined.
Proof. repeat split; reflexivity. Qed.

(** C2 (amended): when the answer of the start request carries no session
    id, starting fails: the error is shown, the status reads
    'Error starting interview', and no session id is stored, no question
    is added and the input flag is left as it was. When the answer carries
    a session id but no opening statement, the page does proceed, with a
    first question built from the configured skill; the other copy of the
    page shows an error there and adds no question. *)
Theorem start_without_session_id_fails
    (data : Value) (now : string) (st : State) :
  (truthy (prop data "session_id") = false ->
     let st' := startInterview_resume (HttpOkJson data) now st in
     st' = startFailed st
     /\ sessionId st' = sessionId st
     /\ transcript st' = transcript st
     /\ isWaitingForAI st' = isWaitingForAI st
     /\ chat st' = chat st ++ [ErrorBubble "Could not start the interview. Please try again."]
     /\ phaseOf st' = PhaseError)
  /\ (forall c skill rest,
        truthy (prop data "session_id") = true ->
        truthy (prop data "opening_statement") = false ->
        interviewConfig st = Some c ->
        skills c = skill :: rest ->
        let st' := startInterview_resume (HttpOkJson data) now st in
        sessionId st' = prop data "session_id"
        /\ transcript st'
           = transcript st ++ [mkEntry (VStr (fallbackQuestion skill)) None now]
        /\ phaseOf st' = AwaitingAnswer)
  /\ (truthy (prop data "session_id") = true ->
      truthy (prop data "opening_statement") = false ->
      let st' := InterviewRev.startInterview_resume (HttpOkJson data) now st in
      transcript st' = transcript st
      /\ chat st'
         = chat st ++ [ErrorBubble "Failed to receive the opening statement. Please try again."]).
Proof.
  split; [|split].
  - intros Hsid. cbv zeta.
    assert (E : startInterview_resume (HttpOkJson data) now st = startFailed st).
    { unfold startInterview_resume, startOrchestratorInterview.
      destruct (truthy data); cbn; [|reflexivity].
      now rewrite Hsid. }
    rewrite E. repeat split; reflexivity.
  - intros c skill rest Hsid Hopen Hc Hskills. cbv zeta.
    unfold startInterview_resume, startOrchestratorInterview.
    assert (Hd : truthy data = true).
    { destruct data; try reflexivity; cbn in Hsid; discriminate. }
    rewrite Hd, Hsid. cbn. rewrite Hd, Hsid, Hopen. cbn.
    rewrite Hc. cbn. rewrite Hskills. repeat split.
  - intros Hsid Hopen. cbv zeta.
    unfold InterviewRev.startInterview_resume, startOrchestratorInterview.
    assert (Hd : truthy data = true).
    { destruct data; try reflexivity; cbn in Hsid; discriminate. }
    rewrite Hd, Hsid. cbn. rewrite Hd, Hsid, Hopen. cbn. split; reflexivity.
Qed.

Lemma start_without_session_id_fails_witness :
  (let st' := startInterview_resume
                (HttpOkJson (VObj [("opening_statement", VStr "Tell me about...")]))
                "09:00" (init (Some sampleConfig)) in
   sessionId st' = VNull /\ transcript st' = [] /\ phaseOf st' = PhaseError)
  /\ (let st' := startInterview_resume (HttpOkJson (VObj [("session_id", VStr "abc123")]))
                   "09:00" (init (Some sampleConfig)) in
      sessionId st' = VStr "abc123" /\ phaseOf st' = AwaitingAnswer).
Proof.
  destruct (start_without_session_id_fails
              (VObj [("opening_statement", VStr "Tell me about...")])
              "09:00" (init (Some sampleConfig))) as [H1 _].
  destruct (start_without_session_id_fails
              (VObj [("session_id", VStr "abc123")])
              "09:00" (init (Some sampleConfig))) as (_ & H2 & _).
  split.
  - destruct (H1 eq_refl) as (_ & Ha & Hb & _ & _ & Hc).
    cbv zeta. rewrite Ha, Hb, Hc. repeat split.
  - destruct (H2 sampleConfig "Product Sense (user empathy)" []
                eq_refl eq_refl eq_refl eq_refl) as (Ha & _ & Hc).
    cbv zeta. rewrite Ha, Hc. repeat split.
Defined.

(** ** C3 *)

(** C3, as stated, fails: the answer [{next_question: "Next question"}]
    with no other field has no truthy [success], so the page takes the
    fall-back branch and completes the interview; no entry is appended. *)
Lemma next_question_alone_counterexample :
  let data := VObj [("next_question", VStr "Next question")] in
  let st := runEvents sampleStarted
              [SendMessage "I led..."; SubmitResponse (HttpOkJson data) "09:05"] in
  completionDetector data = Some AmbiguousCompleted
  /\ transcript st = [mkEntry (VStr "Tell me about...") (Some "I led...") "09:00"]
  /\ phaseOf st = PhaseCompleted
  /\ isWaitingForAI st = true.
Proof. repeat split; reflexivity. Qed.

(** C3 (amended): for every answer of the service, a JSON object, that
    carries no truthy completion flag, a truthy [success] and a truthy next
    question, the detector returns [Continue]: sending a message that is
    not blank while the page awaits an answer in an open session, followed
    by that answer of the service, writes the message into the last entry,
    appends an entry with [answer = null] for the next question, and
    returns to awaiting an answer. *)
Theorem continue_on_success_and_next_question
    (props : list (string * Value)) (v now : string) (st : State) :
  truthy (lookup "interview_completed" props) = false ->
  truthy (lookup "success" props) = true ->
  truthy (lookup "next_question" props) = true ->
  trim v <> "" ->
  isWaitingForAI st = false ->
  truthy (sessionId st) = true ->
  completionDetector (VObj props) = Some Continue
  /\ (let st' := runEvents st [SendMessage v; SubmitResponse (HttpOkJson (VObj props)) now] in
      transcript st'
      = recordAnswer (trim v) (transcript st)
        ++ [mkEntry (lookup "next_question" props) None now]
      /\ isWaitingForAI st' = false
      /\ phaseOf st' = AwaitingAnswer).
Proof.
  intros Hflag Hsucc Hnext Hv Hw Hsid.
  assert (Hdet : completionDetector (VObj props) = Some Continue).
  { unfold completionDetector. cbn. now rewrite Hflag, Hsucc, Hnext. }
  split; [exact Hdet|].
  cbv zeta. cbn [runEvents fold_left step].
  unfold handleSendMessage_begin.
  apply String.eqb_neq in Hv. rewrite Hv, Hw. cbn.
  rewrite Hsid. cbn.
  destruct (answer1_last isSubmit (inFlight st)
              (SubmitAnswer (sessionId st) (trim v)) eq_refl) as [l' ->].
  unfold handleSendMessage_resume, submitAnswer_resume.
  rewrite Hdet. cbn. repeat split.
Qed.

Lemma continue_on_success_and_next_question_witness :
  completionDetector
    (VObj [("success", VBool true); ("next_question", VStr "Next question")])
  = Some Continue
  /\ (let st' := runEvents sampleStarted
                   [SendMessage "I led...";
                    SubmitResponse
                      (HttpOkJson
                         (VObj [("success", VBool true);
                                ("next_question", VStr "Next question")])) "09:05"] in
      transcript st'
      = recordAnswer (trim "I led...") (transcript sampleStarted)
        ++ [mkEntry (VStr "Next question") None "09:05"]
      /\ isWaitingForAI st' = false
      /\ phaseOf st' = AwaitingAnswer).
Proof.
  apply (continue_on_success_and_next_question
           [("success", VBool true); ("next_question", VStr "Next question")]
           "I led..." "09:05" sampleStarted);
    try reflexivity.
  discriminate.
Defined.

(** ** C4 *)

(** C4: an answer whose completion flag is truthy is [Completed], whatever
    else it carries, a next question included; the page then shows the
    completion card and stops taking input. *)
Theorem completion_flag_wins (data : Value) (now : string) (st : State) :
  truthy (prop data "interview_completed") = true ->
  completionDetector data = Some Completed
  /\ (let st' := handleSendMessage_resume (HttpOkJson data) now st in
      phaseOf st' = PhaseCompleted /\ isWaitingForAI st' = true).
Proof.
  intros Hflag.
  assert (Hdet : completionDetector data = Some Completed).
  { unfold completionDetector. unfold prop in Hflag.
    destruct (get data "interview_completed") as [flag|]; [|discriminate].
    now rewrite Hflag. }
  split; [exact Hdet|].
  cbv zeta. unfold handleSendMessage_resume, submitAnswer_resume.
  rewrite Hdet. split; reflexivity.
Qed.

Lemma completion_flag_wins_witness :
  completionDetector
    (VObj [("interview_completed", VBool true); ("next_question", VStr "X")])
  = Some Completed
  /\ (let st' := handleSendMessage_resume
                   (HttpOkJson
                      (VObj [("interview_completed", VBool true);
                             ("next_question", VStr "X")])) "09:05" sampleStarted in
      phaseOf st' = PhaseCompleted /\ isWaitingForAI st' = true).
Proof.
  apply (completion_flag_wins
           (VObj [("interview_completed", VBool true); ("next_question", VStr "X")])
           "09:05" sampleStarted).
  reflexivity.
Defined.

(** ** C5 *)

(** C5: an answer, a JSON object, with neither a truthy completion flag nor
    a truthy next question is [AmbiguousCompleted], and the page completes
    the interview: completion card, input off, transcript and configuration
    saved, no entry added. *)
Theorem neither_flag_nor_question_completes
    (props : list (string * Value)) (now : string) (st : State) :
  truthy (lookup "interview_completed" props) = false ->
  truthy (lookup "next_question" props) = false ->
  completionDetector (VObj props) = Some AmbiguousCompleted
  /\ (let st' := handleSendMessage_resume (HttpOkJson (VObj props)) now st in
      phaseOf st' = PhaseCompleted
      /\ isWaitingForAI st' = true
      /\ transcript st' = transcript st
      /\ saved st' = Some (transcript st, interviewConfig st)).
Proof.
  intros Hflag Hnext.
  assert (Hdet : completionDetector (VObj props) = Some AmbiguousCompleted).
  { unfold completionDetector. cbn. rewrite Hflag, Hnext. now rewrite andb_false_r. }
  split; [exact Hdet|].
  cbv zeta. unfold handleSendMessage_resume, submitAnswer_resume.
  rewrite Hdet. repeat split.
Qed.

Lemma neither_flag_nor_question_completes_witness :
  completionDetector (VObj []) = Some AmbiguousCompleted
  /\ (let st' := handleSendMessage_resume (HttpOkJson (VObj [])) "09:05" sampleStarted in
      phaseOf st' = PhaseCompleted
      /\ isWaitingForAI st' = true
      /\ transcript st' = transcript sampleStarted
      /\ saved st' = Some (transcript sampleStarted, interviewConfig sampleStarted)).
Proof.
  apply (neither_flag_nor_question_completes [] "09:05" sampleStarted); reflexivity.
Defined.

(** ** C6 *)

(** C6, as stated, fails for the legacy flat-score page: without
    [overall_score] it shows the number 75, in the class of a good score. *)
Lemma legacy_score_default_counterexample :
  LegacyFeedback.overall_score (LegacyFeedback.mkPayload Absent (Present "Well done")) = Absent
  /\ LegacyFeedback.displayFeedback (LegacyFeedback.mkPayload Absent (Present "Well done"))
     = LegacyFeedback.mkView 75%Q "score-good".
Proof. split; reflexivity. Qed.

(** C6 (amended): for every enhanced, per-dimension payload without an
    overall score the dashboard shows the score as unavailable ('?',
    'Could not calculate score', in red) and no number, whatever the
    dimensions are; the legacy flat-score page shows the default 75 for a
    payload without [overall_score]. *)
Theorem missing_overall_score
    (data : Dashboard.Payload) (v : Dashboard.View) (legacy : LegacyFeedback.Payload) :
  Dashboard.overallScoreOf data = Absent ->
  LegacyFeedback.overall_score legacy = Absent ->
  (let v' := Dashboard.displayDashboard data v in
   Dashboard.scoreValue v' = Dashboard.QuestionMark
   /\ Dashboard.scoreLabel v' = "Could not calculate score"
   /\ Dashboard.scoreInRed v' = true)
  /\ LegacyFeedback.displayFeedback legacy = LegacyFeedback.mkView 75%Q "score-good".
Proof.
  intros Hd Hl. split.
  - cbv zeta. unfold Dashboard.displayDashboard. rewrite Hd.
    destruct (Dashboard.dimension_evaluations data) as [| |[|d dims]]; repeat split.
  - unfold LegacyFeedback.displayFeedback, LegacyFeedback.scoreOrDefault.
    now rewrite Hl.
Qed.

Lemma missing_overall_score_witness :
  (let v' :=
     Dashboard.displayDashboard
       (Dashboard.mkPayload
          (Present (Dashboard.mkOverall Absent (Present "Solid interview")))
          (Present [("communication", Dashboard.mkDimension (Present 4%Q) Absent);
                    ("problem_solving", Dashboard.mkDimension (Present 3%Q) Absent);
                    ("leadership", Dashboard.mkDimension Absent Absent)]))
       (Dashboard.mkView (Dashboard.OutOfFive 0%Q) "" false None) in
   Dashboard.scoreValue v' = Dashboard.QuestionMark
   /\ Dashboard.scoreLabel v' = "Could not calculate score"
   /\ Dashboard.scoreInRed v' = true)
  /\ LegacyFeedback.displayFeedback (LegacyFeedback.mkPayload Absent Absent)
     = LegacyFeedback.mkView 75%Q "score-good".
Proof.
  apply missing_overall_score; reflexivity.
Defined.

(** ** C7 *)

Lemma Qle_bool_false (x y : Q) : (y < x)%Q -> Qle_bool x y = false.
Proof.
  intros H. destruct (Qle_bool x y) eqn:E; [|reflexivity].
  apply Qle_bool_iff in E. exfalso. exact (Qlt_not_le _ _ H E).
Qed.

(** C7, as stated, fails in the label texts: the page writes
    'Outstanding Performance', 'Exceeds Expectations', 'Good Performance',
    'Meets Expectations' and 'Below Expectations', not the single words of
    the claim. *)
Lemma score_label_text_counterexample :
  (Dashboard.scoreLabelText 4.7 = "Outstanding Performance"
   /\ Dashboard.scoreLabelText 4.7 <> "Outstanding")
  /\ (Dashboard.scoreLabelText 4.2 = "Exceeds Expectations"
      /\ Dashboard.scoreLabelText 4.2 <> "Exceeds")
  /\ (Dashboard.scoreLabelText 3.7 = "Good Performance"
      /\ Dashboard.scoreLabelText 3.7 <> "Good")
  /\ (Dashboard.scoreLabelText 3.2 = "Meets Expectations"
      /\ Dashboard.scoreLabelText 3.2 <> "Meets")
  /\ (Dashboard.scoreLabelText 2.7 = "Below Expectations"
      /\ Dashboard.scoreLabelText 2.7 <> "Below").
Proof. repeat split; try reflexivity; discriminate. Qed.

(** C7 (amended): the label of the overall score is defined for every
    score and follows the thresholds 4.5, 4.0, 3.5, 3.0 and 2.5, with the
    texts 'Outstanding Performance', 'Exceeds Expectations',
    'Good Performance', 'Meets Expectations', 'Below Expectations' and
    'Needs Improvement': one of these six for every score. *)
Theorem score_label_thresholds (score : Q) :
  ((4.5 <= score)%Q ->
     Dashboard.scoreLabelText score = "Outstanding Performance")
  /\ ((4.0 <= score)%Q -> (score < 4.5)%Q ->
        Dashboard.scoreLabelText score = "Exceeds Expectations")
  /\ ((3.5 <= score)%Q -> (score < 4.0)%Q ->
        Dashboard.scoreLabelText score = "Good Performance")
  /\ ((3.0 <= score)%Q -> (score < 3.5)%Q ->
        Dashboard.scoreLabelText score = "Meets Expectations")
  /\ ((2.5 <= score)%Q -> (score < 3.0)%Q ->
        Dashboard.scoreLabelText score = "Below Expectations")
  /\ ((score < 2.5)%Q -> Dashboard.scoreLabelText score = "Needs Improvement")
  /\ In (Dashboard.scoreLabelText score)
        ["Outstanding Performance"; "Exceeds Expectations"; "Good Performance";
         "Meets Expectations"; "Below Expectations"; "Needs Improvement"]
  /\ Dashboard.scoreLabel
       (Dashboard.updateOverallScore score
          (Dashboard.mkView Dashboard.QuestionMark "" false None))
     = Dashboard.scoreLabelText score.
Proof.
  assert (below : forall a b, (a <= b)%Q -> (score < a)%Q -> Qle_bool b score = false).
  { intros a b Hab Hs. apply Qle_bool_false. eapply Qlt_le_trans; eassumption. }
  assert (H45 : (4.0 <= 4.5)%Q) by (unfold Qle; cbn; lia).
  assert (H40 : (3.5 <= 4.0)%Q) by (unfold Qle; cbn; lia).
  assert (H35 : (3.0 <= 3.5)%Q) by (unfold Qle; cbn; lia).
  assert (H30 : (2.5 <= 3.0)%Q) by (unfold Qle; cbn; lia).
  unfold Dashboard.scoreLabelText.
  repeat match goal with |- _ /\ _ => split end.
  - intros H. apply Qle_bool_iff in H. now rewrite H.
  - intros H1 H2. apply Qle_bool_iff in H1.
    now rewrite (below 4.5%Q 4.5%Q (Qle_refl _) H2), H1.
  - intros H1 H2. apply Qle_bool_iff in H1.
    now rewrite (below 4.0%Q 4.5%Q H45 H2), (below 4.0%Q 4.0%Q (Qle_refl _) H2), H1.
  - intros H1 H2. apply Qle_bool_iff in H1.
    assert (H3 : (score < 4.0)%Q) by (eapply Qlt_le_trans; eassumption).
    now rewrite (below 4.0%Q 4.5%Q H45 H3), (below 4.0%Q 4.0%Q (Qle_refl _) H3),
      (below 3.5%Q 3.5%Q (Qle_refl _) H2), H1.
  - intros H1 H2. apply Qle_bool_iff in H1.
    assert (H3 : (score < 3.5)%Q) by (eapply Qlt_le_trans; eassumption).
    assert (H4 : (score < 4.0)%Q) by (eapply Qlt_le_trans; eassumption).
    now rewrite (below 4.0%Q 4.5%Q H45 H4), (below 4.0%Q 4.0%Q (Qle_refl _) H4),
      (below 3.5%Q 3.5%Q (Qle_refl _) H3), (below 3.0%Q 3.0%Q (Qle_refl _) H2), H1.
  - intros H2.
    assert (H3 : (score < 3.0)%Q) by (eapply Qlt_le_trans; eassumption).
    assert (H4 : (score < 3.5)%Q) by (eapply Qlt_le_trans; eassumption).
    assert (H5 : (score < 4.0)%Q) by (eapply Qlt_le_trans; eassumption).
    now rewrite (below 4.0%Q 4.5%Q H45 H5), (below 4.0%Q 4.0%Q (Qle_refl _) H5),
      (below 3.5%Q 3.5%Q (Qle_refl _) H4), (below 3.0%Q 3.0%Q (Qle_refl _) H3),
      (below 2.5%Q 2.5%Q (Qle_refl _) H2).
  - destruct (Qle_bool 4.5 score); [cbn; tauto|].
    destruct (Qle_bool 4.0 score); [cbn; tauto|].
    destruct (Qle_bool 3.5 score); [cbn; tauto|].
    destruct (Qle_bool 3.0 score); [cbn; tauto|].
    destruct (Qle_bool 2.5 score); cbn; tauto.
  - reflexivity.
Qed.

Lemma score_label_thresholds_witness :
  Dashboard.scoreLabelText 4.7%Q = "Outstanding Performance"
  /\ Dashboard.scoreLabelText 4.2%Q = "Exceeds Expectations"
  /\ Dashboard.scoreLabelText 3.5%Q = "Good Performance"
  /\ Dashboard.scoreLabelText 3.25%Q = "Meets Expectations"
  /\ Dashboard.scoreLabelText 2.5%Q = "Below Expectations"
  /\ Dashboard.scoreLabelText 0%Q = "Needs Improvement".
Proof.
  destruct (score_label_thresholds 4.7%Q) as (H1 & _).
  destruct (score_label_thresholds 4.2%Q) as (_ & H2 & _).
  destruct (score_label_thresholds 3.5%Q) as (_ & _ & H3 & _).
  destruct (score_label_thresholds 3.25%Q) as (_ & _ & _ & H4 & _).
  destruct (score_label_thresholds 2.5%Q) as (_ & _ & _ & _ & H5 & _).
  destruct (score_label_thresholds 0%Q) as (_ & _ & _ & _ & _ & H6 & _).
  repeat match goal with |- _ /\ _ => split end.
  - apply H1. unfold Qle; cbn; lia.
  - apply H2; [unfold Qle | unfold Qlt]; cbn; lia.
  - apply H3; [unfold Qle | unfold Qlt]; cbn; lia.
  - apply H4; [unfold Qle | unfold Qlt]; cbn; lia.
  - apply H5; [unfold Qle | unfold Qlt]; cbn; lia.
  - apply H6. unfold Qlt; cbn; lia.
Defined.

(** ** C9 *)

(** C9, as stated, fails: on the page as loaded, before any session is
    started, sending a message is not a no-op. The message and an error
    are shown and the status changes. *)
Lemma send_before_start_counterexample :
  let st := init (Some sampleConfig) in
  phaseOf st = NotStarted
  /\ chat (handleSendMessage_begin "hi" st)
     = [UserBubble "hi"; ErrorBubble "Failed to submit your answer. Please try again."]
  /\ status (handleSendMessage_begin "hi" st) = "Error submitting answer"
  /\ handleSendMessage_begin "hi" st <> st.
Proof.
  repeat split; try reflexivity.
  intros H. apply (f_equal status) in H. discriminate H.
Qed.

(** C9 (amended): sending is a complete no-op whenever the page is waiting
    for the service ([isWaitingForAI], set while an answer is being
    submitted and once the interview is complete): nothing of the state
    changes and no request is sent. Without a session no request is sent
    either, though the message and an error are shown. Along every
    sequence of events of a session that is begun once, at most one
    request is in flight, and sending is a no-op in the phases Submitting
    and Completed. *)
Theorem send_is_noop_while_waiting :
  (forall (st : State) (v : string),
     isWaitingForAI st = true -> handleSendMessage_begin v st = st)
  /\ (forall (st : State) (v : string),
        truthy (sessionId st) = false ->
        inFlight (handleSendMessage_begin v st) = inFlight st)
  /\ (forall (config : option Config) (trace : list Event) (v : string),
        singleBegin false trace = true ->
        let s := runEvents (init config) trace in
        List.length (inFlight s) <= 1
        /\ (phaseOf s = Submitting \/ phaseOf s = PhaseCompleted ->
              handleSendMessage_begin v s = s)).
Proof.
  assert (Hwait : forall s v, isWaitingForAI s = true -> handleSendMessage_begin v s = s).
  { intros s v Hw. unfold handleSendMessage_begin. now rewrite Hw, orb_true_r. }
  split; [exact Hwait | split].
  - intros st v Hsid. unfold handleSendMessage_begin.
    destruct (String.eqb (trim v) "" || isWaitingForAI st); [reflexivity|].
    cbn. rewrite Hsid. reflexivity.
  - intros config trace v Htrace. cbv zeta.
    destruct (runEvents_Inv trace false (init config) (init_Inv config) Htrace)
      as [b' HI].
    split; [exact (Inv_inFlight _ _ HI)|].
    intros Hphase. apply Hwait. exact (inv_phase _ _ HI Hphase).
Qed.

Lemma send_is_noop_while_waiting_witness :
  let waiting := step sampleStarted (SendMessage "I led...") in
  isWaitingForAI waiting = true
  /\ phaseOf waiting = Submitting
  /\ inFlight waiting = [SubmitAnswer (VStr "abc123") "I led..."]
  /\ handleSendMessage_begin "And then..." waiting = waiting
  /\ inFlight (handleSendMessage_begin "hi" (init (Some sampleConfig))) = []
  /\ List.length
       (inFlight
          (runEvents (init (Some sampleConfig))
             [BeginInterview; StartResponse (HttpOkJson sampleOpening) "09:00";
              SendMessage "I led..."; SendMessage "And then..."])) <= 1.
Proof.
  destruct send_is_noop_while_waiting as (Hwait & Hnone & Hpage).
  cbv zeta.
  split; [reflexivity | split; [reflexivity | split; [reflexivity | split; [|split]]]].
  - apply Hwait. reflexivity.
  - apply (Hnone (init (Some sampleConfig)) "hi"). reflexivity.
  - apply (Hpage (Some sampleConfig)
             [BeginInterview; StartResponse (HttpOkJson sampleOpening) "09:00";
              SendMessage "I led..."; SendMessage "And then..."] "x").
    reflexivity.
Defined.

(** ** C10 *)

Lemma trim_blank (v : string) : allWhiteSpace v = true -> trim v = "".
Proof.
  unfold trim. induction v as [|c v IH]; [reflexivity|].
  cbn. intros H. apply andb_true_iff in H as [Hc Hv].
  rewrite Hc. now apply IH.
Qed.

(** C10: when the input is empty or white space only, sending is a
    complete no-op, also while the page awaits an answer: the trimmed
    message is empty, the state is unchanged, so no entry is created or
    modified and no request is sent. *)
Theorem blank_input_is_noop (st : State) (v : string) :
  allWhiteSpace v = true ->
  trim v = ""
  /\ handleSendMessage_begin v st = st
  /\ step st (SendMessage v) = st
  /\ transcript (handleSendMessage_begin v st) = transcript st
  /\ inFlight (handleSendMessage_begin v st) = inFlight st.
Proof.
  intros Hv. pose proof (trim_blank v Hv) as Ht.
  assert (E : handleSendMessage_begin v st = st).
  { unfold handleSendMessage_begin. now rewrite Ht. }
  cbn [step]. rewrite E. repeat split. exact Ht.
Qed.

Lemma blank_input_is_noop_witness :
  isWaitingForAI sampleStarted = false
  /\ phaseOf sampleStarted = AwaitingAnswer
  /\ handleSendMessage_begin "   " sampleStarted = sampleStarted
  /\ step sampleStarted (SendMessage "") = sampleStarted.
Proof.
  destruct (blank_input_is_noop sampleStarted "   " eq_refl) as (_ & H1 & _).
  destruct (blank_input_is_noop sampleStarted "" eq_refl) as (_ & _ & H2 & _).
  split; [reflexivity | split; [reflexivity | split]].
  - exact H1.
  - exact H2.
Defined.

(** * Further properties of the code *)

(** ** The transcript under the two operations *)
Module StoreFacts.
Import Session.

Lemma asked_recordAnswer (m : string) (t : Store) :
  asked (recordAnswer m t) = asked t.
Proof.
  destruct (store_cases t) as [-> | (t' & e & ->)]; [reflexivity|].
  rewrite recordAnswer_app. unfold asked. now rewrite !map_app.
Qed.

Lemma asked_appendQuestion (q : Value) (now : string) (t : Store) :
  asked (appendQuestion q now t) = asked t ++ [(q, now)].
Proof. unfold asked, appendQuestion. now rewrite map_app. Qed.

Lemma removelast_recordAnswer (m : string) (t : Store) :
  removelast (recordAnswer m t) = removelast t.
Proof.
  destruct (store_cases t) as [-> | (t' & e & ->)]; [reflexivity|].
  now rewrite recordAnswer_app, !removelast_last.
Qed.

Lemma length_recordAnswer (m : string) (t : Store) :
  List.length (recordAnswer m t) = List.length t.
Proof.
  destruct (store_cases t) as [-> | (t' & e & ->)]; [reflexivity|].
  now rewrite recordAnswer_app, !length_app.
Qed.

Lemma recordAnswer_twice (m1 m2 : string) (t : Store) :
  recordAnswer m2 (recordAnswer m1 t) = recordAnswer m2 t.
Proof.
  destruct (store_cases t) as [-> | (t' & e & ->)]; [reflexivity|].
  now rewrite !recordAnswer_app.
Qed.

Lemma lastAnswer_recordAnswer (m : string) (t : Store) :
  t = [] \/ lastAnswer (recordAnswer m t) = Some (Some m).
Proof.
  destruct (store_cases t) as [-> | (t' & e & ->)]; [now left | right].
  rewrite recordAnswer_app. unfold lastAnswer. now rewrite rev_unit.
Qed.

Lemma answeredButLast_recordAnswer (m : string) (t : Store) :
  answeredButLast t = true -> answeredButLast (recordAnswer m t) = true.
Proof. unfold answeredButLast. now rewrite removelast_recordAnswer. Qed.

Lemma answeredButLast_appendQuestion (q : Value) (now : string) (t : Store) :
  answeredButLast t = true -> lastPending t = false ->
  answeredButLast (appendQuestion q now t) = true.
Proof.
  unfold answeredButLast, appendQuestion. rewrite removelast_last.
  destruct (store_cases t) as [-> | (t' & e & ->)]; [reflexivity|].
  rewrite removelast_last, lastPending_app, forallb_app.
  intros H1 H2. rewrite H1. cbn. now rewrite H2.
Qed.

End StoreFacts.

(** ** The session invariant, extended *)
Module SessionFacts.
Import Session StoreFacts.

Lemma Inv_fresh (st : State) :
  Inv false st ->
  inFlight st = [] /\ truthy (sessionId st) = false /\ transcript st = [].
Proof.
  intros [_ _ Hq]. unfold pendingOk in Hq.
  destruct (inFlight st) as [|[] [|]]; try contradiction; try (now destruct Hq).
Qed.

(** With a session and the input enabled nothing is in flight. *)
Lemma Inv_idle (b : bool) (st : State) :
  Inv b st -> isWaitingForAI st = false -> truthy (sessionId st) = true ->
  inFlight st = [] /\ b = true.
Proof.
  intros [_ _ Hq] Hw Hsid. unfold pendingOk in Hq.
  destruct (inFlight st) as [|[] [|]]; try contradiction.
  - split; [reflexivity|]. destruct b; [reflexivity|].
    destruct (Hq eq_refl); congruence.
  - destruct Hq as (_ & Hq & _); congruence.
  - destruct Hq as (_ & Hq & _); congruence.
Qed.

Ltac phase_no :=
  match goal with
  | |- _ = PhaseCompleted -> _ => let H := fresh in intros H; discriminate H
  end.

Lemma begin_Inv2 (st : State) :
  Inv2 false st -> Inv2 true (handleBeginInterview st).
Proof.
  intros [HI Ha Hr Hc Hs].
  pose proof (begin_Inv st HI) as HI'.
  destruct (Inv_fresh st HI) as (Hfl & Hsid & Htr).
  assert (Hsaved : saved st = None).
  { destruct Hs as [Hs | [Hs _]]; [exact Hs|]. destruct (Hc Hs); discriminate. }
  revert HI'. unfold handleBeginInterview, startInterview_begin. cbn.
  destruct (interviewConfig st) as [c|];
    [destruct (startRequest c) as [e|req] eqn:Hreq|]; cbn; intros HI'.
  - split; cbn; [exact HI' | exact Ha | | phase_no | now left].
    intros sid m. cbn. rewrite Hfl. discriminate.
  - split; cbn; [exact HI' | exact Ha | | phase_no | now left].
    intros sid m. cbn. rewrite Hfl. cbn. intros [= ->].
    apply startRequest_isStart in Hreq. discriminate.
  - split; cbn; [exact HI' | exact Ha | | phase_no | now left].
    intros sid m. cbn. rewrite Hfl. discriminate.
Qed.

Lemma send_Inv2 (b : bool) (v : string) (st : State) :
  Inv2 b st -> Inv2 b (handleSendMessage_begin v st).
Proof.
  intros [HI Ha Hr Hc Hs].
  pose proof (send_Inv b v st HI) as HI'.
  revert HI'. unfold handleSendMessage_begin.
  destruct (String.eqb (trim v) "" || isWaitingForAI st) eqn:Hguard;
    [intros _; now split|].
  apply orb_false_iff in Hguard as [Hm Hw].
  assert (Hsaved : saved st = None).
  { destruct Hs as [Hs | [Hph _]]; [exact Hs|].
    destruct HI as [_ Hp _]. rewrite Hp in Hw; [discriminate | now right]. }
  cbn. destruct (truthy (sessionId st)) eqn:Hsid; cbn; intros HI'.
  - destruct (Inv_idle b st HI Hw Hsid) as [Hfl _].
    split; cbn;
      [exact HI' | now apply answeredButLast_recordAnswer | | phase_no | now left].
    intros sid m. cbn. rewrite Hfl. cbn. intros [= <- <-].
    repeat split; [exact Hsid | now apply String.eqb_neq |].
    destruct (lastAnswer_recordAnswer (trim v) (transcript st)) as [-> | H];
      [now left | now right].
  - split; cbn;
      [exact HI' | now apply answeredButLast_recordAnswer | | phase_no | now left].
    intros sid m. cbn. intros Hfl.
    destruct HI as [_ _ Hq]. unfold pendingOk in Hq. rewrite Hfl in Hq.
    destruct Hq as (_ & Hq & _). congruence.
Qed.

Lemma Inv_shape (b : bool) (st : State) :
  Inv b st ->
  inFlight st = []
  \/ (exists q, inFlight st = [q] /\ isStart q = true
                /\ b = true /\ truthy (sessionId st) = false /\ transcript st = [])
  \/ (exists q, inFlight st = [q] /\ isStart q = false
                /\ b = true /\ isWaitingForAI st = true
                /\ lastPending (transcript st) = false).
Proof.
  intros [_ _ Hq]. unfold pendingOk in Hq.
  destruct (inFlight st) as [|q [|q' l]]; [now left | | destruct q; contradiction].
  destruct q; [right; left | right; right]; eexists; repeat split;
    try reflexivity; apply Hq.
Qed.

Lemma startFailed_Inv2 (st : State) :
  Inv true (startFailed st) -> transcript st = [] -> inFlight st = [] ->
  saved st = None -> Inv2 true (startFailed st).
Proof.
  intros HI Htr Hfl Hsaved.
  split; cbn; [exact HI | now rewrite Htr | | phase_no | now left].
  intros sid m. cbn. rewrite Hfl. discriminate.
Qed.

Lemma startResponse_Inv2 (b : bool) (r : FetchResult) (now : string) (st : State) :
  Inv2 b st -> Inv2 b (step st (StartResponse r now)).
Proof.
  intros [HI Ha Hr Hc Hs].
  pose proof (startResponse_Inv b r now st HI) as HI'.
  revert HI'. cbn.
  destruct (Inv_shape b st HI)
    as [Hfl | [(q & Hfl & Hk & -> & _ & Htr) | (q & Hfl & Hk & _)]];
    rewrite Hfl; cbn; rewrite ?Hk; try (intros _; now split).
  assert (Hsaved : saved st = None).
  { destruct Hs as [Hs | [Hph _]]; [exact Hs|].
    destruct (Hc Hph) as [H0 _]. congruence. }
  unfold startInterview_resume.
  destruct (startOrchestratorInterview r) as [e|response];
    [intros HI'; now apply startFailed_Inv2|].
  destruct (truthy response && truthy (prop response "session_id"));
    [|intros HI'; now apply startFailed_Inv2].
  destruct (truthy (prop response "opening_statement")).
  - intros HI'. split; cbn; [exact HI' | now rewrite Htr | | phase_no | now left].
    intros sid m. cbn. discriminate.
  - cbn. destruct (interviewConfig st) as [c|]; cbn;
      [|intros HI'; now apply startFailed_Inv2].
    destruct (skills c) as [|skill rest]; [intros HI'; now apply startFailed_Inv2|].
    intros HI'. split; cbn; [exact HI' | now rewrite Htr | | phase_no | now left].
    intros sid m. cbn. discriminate.
Qed.

Lemma submitFailed_Inv2 (st : State) :
  Inv true (submitFailed st) -> answeredButLast (transcript st) = true ->
  inFlight st = [] -> saved st = None -> Inv2 true (submitFailed st).
Proof.
  intros HI Ha Hfl Hsaved.
  split; cbn; [exact HI | exact Ha | | phase_no | now left].
  intros sid m. cbn. rewrite Hfl. discriminate.
Qed.

Lemma submitResponse_Inv2 (b : bool) (r : FetchResult) (now : string) (st : State) :
  Inv2 b st -> Inv2 b (step st (SubmitResponse r now)).
Proof.
  intros [HI Ha Hr Hc Hs].
  pose proof (submitResponse_Inv b r now st HI) as HI'.
  revert HI'. cbn.
  destruct (Inv_shape b st HI)
    as [Hfl | [(q & Hfl & Hk & _) | (q & Hfl & Hk & -> & _ & Hlast)]];
    rewrite Hfl; cbn; unfold isSubmit; rewrite ?Hk; cbn; try (intros _; now split).
  assert (Hsaved : saved st = None).
  { destruct Hs as [Hs | [Hph _]]; [exact Hs|].
    destruct (Hc Hph) as [H0 _]. congruence. }
  unfold handleSendMessage_resume, submitAnswer_resume.
  destruct r as [| s t | | data];
    try (intros HI'; now apply submitFailed_Inv2).
  destruct (completionDetector data) as [[| |]|];
    [| | |intros HI'; now apply submitFailed_Inv2]; intros HI'.
  - split; cbn;
      [exact HI' | now apply answeredButLast_appendQuestion | | now split | now right].
    intros sid m. cbn. discriminate.
  - split; cbn;
      [exact HI' | now apply answeredButLast_appendQuestion | | phase_no | now left].
    intros sid m. cbn. discriminate.
  - split; cbn; [exact HI' | exact Ha | | now split | now right].
    intros sid m. cbn. discriminate.
Qed.

Lemma init_Inv2 (config : option Config) : Inv2 false (init config).
Proof.
  split; cbn; [apply init_Inv | reflexivity | | phase_no | now left].
  intros sid m. cbn. discriminate.
Qed.

Lemma step_Inv2 (b : bool) (ev : Event) (st : State) :
  Inv2 b st -> singleBegin b [ev] = true -> Inv2 (begunAfter b [ev]) (step st ev).
Proof.
  intros HI Hs. unfold begunAfter. destruct ev; cbn in *.
  - rewrite andb_true_r in Hs. apply negb_true_iff in Hs. subst b.
    now apply begin_Inv2.
  - rewrite orb_false_r. now apply startResponse_Inv2.
  - rewrite orb_false_r. now apply send_Inv2.
  - rewrite orb_false_r. now apply submitResponse_Inv2.
Qed.

Lemma singleBegin_app (t1 t2 : list Event) :
  forall b, singleBegin b (t1 ++ t2)
            = singleBegin b t1 && singleBegin (begunAfter b t1) t2.
Proof.
  unfold begunAfter.
  induction t1 as [|ev t1 IH]; intros b; cbn.
  - now rewrite orb_false_r.
  - destruct ev; cbn; rewrite IH; cbn; rewrite ?orb_true_r, ?orb_true_l;
      try reflexivity.
    destruct b; cbn; [reflexivity|]. reflexivity.
Qed.

Lemma runEvents_app (t1 t2 : list Event) (st : State) :
  runEvents st (t1 ++ t2) = runEvents (runEvents st t1) t2.
Proof. apply fold_left_app. Qed.

(** The extended invariant along every trace that begins at most once. *)
Lemma runEvents_Inv2 (trace : list Event) :
  forall b st, Inv2 b st -> singleBegin b trace = true ->
               Inv2 (begunAfter b trace) (runEvents st trace).
Proof.
  induction trace as [|ev trace IH]; intros b st HI Hs.
  - unfold begunAfter. cbn. now rewrite orb_false_r.
  - change (ev :: trace) with ([ev] ++ trace) in *.
    rewrite singleBegin_app in Hs. apply andb_true_iff in Hs as [H1 H2].
    rewrite runEvents_app.
    replace (begunAfter b ([ev] ++ trace))
      with (begunAfter (begunAfter b [ev]) trace).
    + apply IH; [|exact H2]. now apply step_Inv2.
    + unfold begunAfter. cbn. now rewrite orb_false_r, orb_assoc.
Qed.

Lemma reachable_Inv2 (config : option Config) (trace : list Event) :
  singleBegin false trace = true ->
  Inv2 (begunAfter false trace) (runEvents (init config) trace).
Proof. intros H. apply runEvents_Inv2; [apply init_Inv2 | exact H]. Qed.

End SessionFacts.

(** ** The session controller beyond the claims *)

Import Session StoreFacts SessionFacts.

Lemma trimEnd_blank (s : string) : trimEnd s = "" -> allWhiteSpace s = true.
Proof.
  induction s as [|c s IH]; [reflexivity|].
  cbn. destruct (trimEnd s) eqn:E; [|discriminate].
  destruct (isWhiteSpace c); [intros _; now apply IH | discriminate].
Qed.

Lemma trimStart_blank (s : string) :
  allWhiteSpace (trimStart s) = true -> allWhiteSpace s = true.
Proof.
  induction s as [|c s IH]; [reflexivity|].
  cbn. destruct (isWhiteSpace c) eqn:E; [exact IH|].
  cbn. now rewrite E.
Qed.

Lemma trim_blank_iff (v : string) : trim v = "" <-> allWhiteSpace v = true.
Proof.
  split; [|apply trim_blank].
  intros H. apply trimStart_blank, trimEnd_blank. exact H.
Qed.

Lemma beforeParen_cons (c c' : ascii) (s : string) :
  beforeParen (String c (String c' s))
  = if Ascii.eqb c " " && Ascii.eqb c' "(" then ""
    else String c (beforeParen (String c' s)).
Proof. reflexivity. Qed.

Lemma hasParen_cons (c c' : ascii) (s : string) :
  Text.hasParen (String c (String c' s))
  = (Ascii.eqb c " " && Ascii.eqb c' "(") || Text.hasParen (String c' s).
Proof. reflexivity. Qed.

(** X1: the first skill's name, as it is sent and shown: the text before the
    first [" ("] of the skill. It is a prefix of the skill, holds no
    [" ("], and is the whole skill when the skill holds none. *)
Theorem skill_name_is_prefix (s : string) :
  (exists rest, s = (beforeParen s ++ rest)%string)
  /\ Text.hasParen (beforeParen s) = false
  /\ (Text.hasParen s = false -> beforeParen s = s).
Proof.
  induction s as [|c s ((rest & IH1) & IH2 & IH3)];
    [repeat split; now exists ""|].
  destruct s as [|c' s'].
  - repeat split. now exists "".
  - rewrite beforeParen_cons, hasParen_cons.
    destruct (Ascii.eqb c " " && Ascii.eqb c' "(") eqn:E.
    + repeat split; [now eexists | discriminate].
    + cbn [orb]. repeat split.
      * exists rest. cbn [String.append]. now rewrite <- IH1.
      * destruct s' as [|c'' s''].
        -- cbn. now rewrite E.
        -- rewrite beforeParen_cons in *.
           destruct (Ascii.eqb c' " " && Ascii.eqb c'' "(") eqn:E'; [reflexivity|].
           rewrite hasParen_cons. now rewrite E, IH2.
      * intros H. now rewrite (IH3 H).
Qed.

Lemma skill_name_is_prefix_witness :
  beforeParen "Product Sense" = "Product Sense".
Proof.
  destruct (skill_name_is_prefix "Product Sense") as (_ & _ & H).
  apply H. reflexivity.
Defined.

(** X2: a configuration that [isValidConfiguration] accepts always gets its
    start request out: pressing the begin button issues one request with
    the role, the seniority, the skills, the selected skill name or else
    the name of the first skill, and the first skill in full. *)
Theorem begin_with_valid_configuration (c : Config) (st : State) :
  interviewConfig st = Some c ->
  isValidConfiguration c = true ->
  exists first,
    hd_error (skills c) = Some first
    /\ inFlight (handleBeginInterview st)
       = inFlight st
         ++ [StartInterview (role c) (seniority c) (skills c)
               (orElse (selectedSkillName c) (beforeParen first))
               (orElse (selectedSkillDescription c) "") (Some first)]
    /\ phaseOf (handleBeginInterview st) = Starting
    /\ loading (handleBeginInterview st) = true.
Proof.
  intros Hc Hv. unfold isValidConfiguration in Hv.
  apply andb_true_iff in Hv as [_ Hs]. apply Nat.ltb_lt in Hs.
  destruct (skills c) as [|first rest] eqn:Hskills; [cbn in Hs; lia|].
  exists first. split; [reflexivity|].
  unfold handleBeginInterview. cbn. rewrite Hc.
  unfold startInterview_begin, startRequest, orElse. rewrite Hskills. cbn.
  destruct (selectedSkillName c) as [s|]; [destruct (String.eqb s "")|];
    cbn; repeat split.
Qed.

Lemma begin_with_valid_configuration_witness :
  exists first,
    hd_error (skills sampleConfig) = Some first
    /\ inFlight (handleBeginInterview (init (Some sampleConfig)))
       = [] ++ [StartInterview "Product Manager" "Senior"
                  ["Product Sense (user empathy)"]
                  (orElse None (beforeParen first)) (orElse None "") (Some first)]
    /\ phaseOf (handleBeginInterview (init (Some sampleConfig))) = Starting
    /\ loading (handleBeginInterview (init (Some sampleConfig))) = true.
Proof.
  apply (begin_with_valid_configuration sampleConfig (init (Some sampleConfig)));
    reflexivity.
Defined.

(** X3: sending does nothing in exactly two cases: the input is blank, or the
    page is waiting for the service. In every other case the message is
    put on the screen. *)
Theorem send_is_noop_iff (st : State) (v : string) :
  handleSendMessage_begin v st = st
  <-> (allWhiteSpace v = true \/ isWaitingForAI st = true).
Proof.
  split.
  - intros H. unfold handleSendMessage_begin in H.
    destruct (String.eqb (trim v) "") eqn:Hm.
    + left. apply trim_blank_iff. now apply String.eqb_eq.
    + destruct (isWaitingForAI st) eqn:Hw; [now right|]. exfalso.
      cbn in H. apply (f_equal (fun s => List.length (chat s))) in H.
      destruct (truthy (sessionId st)); cbn in H;
        rewrite ?length_app in H; cbn in H; lia.
  - intros [Hv | Hw]; unfold handleSendMessage_begin.
    + apply trim_blank_iff in Hv. now rewrite Hv.
    + now rewrite Hw, orb_true_r.
Qed.

Lemma submit_refused (r : FetchResult) (now : string) (st : State) :
  submitRefused r = true ->
  let st' := handleSendMessage_resume r now st in
  transcript st' = transcript st
  /\ sessionId st' = sessionId st
  /\ saved st' = saved st
  /\ inFlight st' = inFlight st
  /\ chat st' = chat st ++ [ErrorBubble "Failed to submit your answer. Please try again."]
  /\ isWaitingForAI st' = false
  /\ inputDisabled st' = false
  /\ loading st' = false
  /\ phaseOf st' = PhaseError.
Proof.
  intros Hr. cbv zeta. unfold handleSendMessage_resume, submitAnswer_resume.
  destruct r as [| s t | | data]; try (cbn; now repeat split).
  destruct data; try discriminate Hr; cbn; now repeat split.
Qed.

(** X4: when submitting fails (no answer from the network, an HTTP error, a
    body that is not JSON, a [null] body), the transcript, the session id
    and what is stored stay as they are, the error is shown, and the input
    is enabled again. *)
Theorem failed_submit_keeps_session (r : FetchResult) (now : string) (st : State) :
  submitRefused r = true ->
  let st' := handleSendMessage_resume r now st in
  transcript st' = transcript st
  /\ sessionId st' = sessionId st
  /\ saved st' = saved st
  /\ inFlight st' = inFlight st
  /\ chat st' = chat st ++ [ErrorBubble "Failed to submit your answer. Please try again."]
  /\ isWaitingForAI st' = false
  /\ inputDisabled st' = false
  /\ loading st' = false
  /\ phaseOf st' = PhaseError.
Proof. exact (submit_refused r now st). Qed.

Lemma failed_submit_keeps_session_witness :
  let st := step sampleStarted (SendMessage "I led...") in
  let st' := handleSendMessage_resume (HttpNotOk 500 "Internal Server Error") "09:05" st in
  transcript st' = transcript st
  /\ sessionId st' = sessionId st
  /\ saved st' = saved st
  /\ inFlight st' = inFlight st
  /\ chat st' = chat st ++ [ErrorBubble "Failed to submit your answer. Please try again."]
  /\ isWaitingForAI st' = false
  /\ inputDisabled st' = false
  /\ loading st' = false
  /\ phaseOf st' = PhaseError.
Proof.
  apply (failed_submit_keeps_session (HttpNotOk 500 "Internal Server Error") "09:05"
           (step sampleStarted (SendMessage "I led..."))).
  reflexivity.
Defined.

Lemma send_goes_out (v : string) (st : State) :
  allWhiteSpace v = false ->
  isWaitingForAI st = false ->
  truthy (sessionId st) = true ->
  let st' := handleSendMessage_begin v st in
  transcript st' = recordAnswer (trim v) (transcript st)
  /\ inFlight st' = inFlight st ++ [SubmitAnswer (sessionId st) (trim v)]
  /\ sessionId st' = sessionId st
  /\ isWaitingForAI st' = true.
Proof.
  intros Hv Hw Hsid. cbv zeta.
  assert (Hm : String.eqb (trim v) "" = false).
  { destruct (String.eqb (trim v) "") eqn:E; [|reflexivity].
    apply String.eqb_eq, trim_blank_iff in E. congruence. }
  unfold handleSendMessage_begin. rewrite Hm, Hw. cbn. rewrite Hsid. cbn.
  repeat split.
Qed.

(** X5: after a failed submit the user can send again: the new message
    replaces the answer of the last entry, no entry is added, and the new
    message goes out under the same session id. *)
Theorem retry_replaces_answer
    (r : FetchResult) (now v1 v2 : string) (st : State) :
  submitRefused r = true ->
  allWhiteSpace v1 = false ->
  allWhiteSpace v2 = false ->
  isWaitingForAI st = false ->
  truthy (sessionId st) = true ->
  inFlight st = [] ->
  let st' := runEvents st [SendMessage v1; SubmitResponse r now; SendMessage v2] in
  transcript st' = recordAnswer (trim v2) (transcript st)
  /\ List.length (transcript st') = List.length (transcript st)
  /\ inFlight st' = [SubmitAnswer (sessionId st) (trim v2)].
Proof.
  intros Hr H1 H2 Hw Hsid Hfl. cbv zeta.
  cbn [runEvents fold_left step].
  destruct (send_goes_out v1 st H1 Hw Hsid) as (Et1 & Ef1 & Es1 & _).
  set (s1 := handleSendMessage_begin v1 st) in *.
  rewrite Ef1, Hfl. cbn [app answer1 isSubmit isStart negb].
  destruct (submit_refused r now (setInFlight [] s1) Hr)
    as (Et2 & Es2 & _ & Ef2 & _ & Ew2 & _).
  set (s2 := handleSendMessage_resume r now (setInFlight [] s1)) in *.
  cbn in Et2, Es2, Ef2.
  assert (Hsid2 : truthy (sessionId s2) = true) by now rewrite Es2, Es1.
  destruct (send_goes_out v2 s2 H2 Ew2 Hsid2) as (Et3 & Ef3 & _).
  rewrite Et3, Ef3, Et2, Ef2, Es2, Et1, Es1.
  rewrite recordAnswer_twice, length_recordAnswer. repeat split.
Qed.

Lemma retry_replaces_answer_witness :
  let st' := runEvents sampleStarted
               [SendMessage "I led..."; SubmitResponse FetchRejected "09:05";
                SendMessage "I led a team"] in
  transcript st' = recordAnswer (trim "I led a team") (transcript sampleStarted)
  /\ List.length (transcript st') = List.length (transcript sampleStarted)
  /\ inFlight st' = [SubmitAnswer (sessionId sampleStarted) (trim "I led a team")].
Proof.
  apply (retry_replaces_answer FetchRejected "09:05" "I led..." "I led a team"
           sampleStarted); reflexivity.
Defined.

(** What one event can do to the transcript. *)
Lemma step_transcript (st : State) (ev : Event) :
  transcript (step st ev) = transcript st
  \/ (exists m, transcript (step st ev) = recordAnswer m (transcript st))
  \/ (exists q now, transcript (step st ev) = appendQuestion q now (transcript st)).
Proof.
  destruct ev as [| r now | v | r now]; cbn.
  - unfold handleBeginInterview, startInterview_begin. cbn.
    destruct (interviewConfig st) as [c|]; [|now left].
    destruct (startRequest c); now left.
  - destruct (answer1 isStart (inFlight st)) as [l|]; [|now left].
    unfold startInterview_resume.
    destruct (startOrchestratorInterview r) as [e|response]; [now left|].
    destruct (truthy response && truthy (prop response "session_id")); [|now left].
    destruct (truthy (prop response "opening_statement"));
      [right; right; now eexists _, _|].
    cbn. destruct (interviewConfig st) as [c|]; [|now left].
    cbn. destruct (skills c); [now left | right; right; now eexists _, _].
  - unfold handleSendMessage_begin.
    destruct (String.eqb (trim v) "" || isWaitingForAI st); [now left|].
    cbn. destruct (truthy (sessionId st)); right; left; now eexists.
  - destruct (answer1 isSubmit (inFlight st)) as [l|]; [|now left].
    unfold handleSendMessage_resume, submitAnswer_resume.
    destruct r as [| s t | | data]; try now left.
    destruct (completionDetector data) as [[| |]|]; try now left.
    + right; right; now eexists _, _.
    + right; right; now eexists _, _.
Qed.

(** X6: the log only grows: whatever the events, no entry is removed or
    reordered, no question or time stamp is changed, and an entry that has
    a successor keeps its answer. *)
Theorem transcript_is_append_only (trace : list Event) (st : State) :
  let t := transcript st in
  let t' := transcript (runEvents st trace) in
  List.length t <= List.length t'
  /\ (exists added, asked t' = asked t ++ added)
  /\ (exists tail, t' = removelast t ++ tail).
Proof.
  cbv zeta. revert st.
  induction trace as [|ev trace IH]; intros st.
  - cbn. split; [lia | split].
    + exists []. now rewrite app_nil_r.
    + destruct (store_cases (transcript st)) as [-> | (t' & e & ->)];
        [now exists [] | exists [e]; now rewrite removelast_last].
  - cbn [runEvents fold_left].
    destruct (IH (step st ev)) as (Hlen & (added & Hasked) & (tail & Htail)).
    fold (runEvents (step st ev) trace) in *.
    destruct (step_transcript st ev) as [E | [(m & E) | (q & now & E)]];
      rewrite E in *.
    + repeat split; [exact Hlen | now exists added | now exists tail].
    + rewrite length_recordAnswer in Hlen. rewrite asked_recordAnswer in Hasked.
      rewrite removelast_recordAnswer in Htail.
      repeat split; [exact Hlen | now exists added | now exists tail].
    + rewrite asked_appendQuestion in Hasked.
      unfold appendQuestion in Hlen, Htail. rewrite length_app in Hlen. cbn in Hlen.
      rewrite removelast_last in Htail.
      split; [lia | split].
      * eexists. rewrite Hasked, <- app_assoc. reflexivity.
      * destruct (store_cases (transcript st)) as [E0 | (t0 & e & E0)]; rewrite E0 in *.
        -- now exists tail.
        -- rewrite removelast_last. exists (e :: tail).
           rewrite Htail, <- app_assoc. reflexivity.
Qed.

(** X7: in a session that is begun once, every entry but the last has an
    answer. *)
Theorem only_last_entry_unanswered (config : option Config) (trace : list Event) :
  singleBegin false trace = true ->
  answeredButLast (transcript (runEvents (init config) trace)) = true.
Proof.
  intros H. exact (inv2_answered _ _ (reachable_Inv2 config trace H)).
Qed.

Lemma only_last_entry_unanswered_witness :
  answeredButLast
    (transcript
       (runEvents (init (Some sampleConfig))
          [BeginInterview; StartResponse (HttpOkJson sampleOpening) "09:00";
           SendMessage "I led...";
           SubmitResponse
             (HttpOkJson (VObj [("success", VBool true); ("next_question", VStr "And then?")]))
             "09:05"])) = true.
Proof. apply only_last_entry_unanswered. reflexivity. Defined.

(** X8: in a session that is begun once, a submit request that is in flight
    carries the session id the page holds, which is truthy, and a message
    that is not empty; unless the transcript is empty, that message is the
    answer of the last entry. *)
Theorem request_matches_state
    (config : option Config) (trace : list Event) (sid : Value) (m : string) :
  singleBegin false trace = true ->
  let st := runEvents (init config) trace in
  inFlight st = [SubmitAnswer sid m] ->
  sid = sessionId st /\ truthy sid = true /\ m <> ""
  /\ (transcript st = [] \/ lastAnswer (transcript st) = Some (Some m)).
Proof.
  intros H. cbv zeta. exact (inv2_request _ _ (reachable_Inv2 config trace H) sid m).
Qed.

Lemma request_matches_state_witness :
  let st := runEvents (init (Some sampleConfig))
              [BeginInterview; StartResponse (HttpOkJson sampleOpening) "09:00";
               SendMessage "  I led...  "] in
  VStr "abc123" = sessionId st /\ truthy (VStr "abc123") = true /\ "I led..." <> ""
  /\ (transcript st = [] \/ lastAnswer (transcript st) = Some (Some "I led...")).
Proof.
  apply (request_matches_state (Some sampleConfig)
           [BeginInterview; StartResponse (HttpOkJson sampleOpening) "09:00";
            SendMessage "  I led...  "] (VStr "abc123") "I led...");
    reflexivity.
Defined.

(** A state that waits with nothing in flight does not move, as long as
    the begin button is not pressed. *)
Lemma waiting_is_frozen (trace : list Event) (st : State) :
  isWaitingForAI st = true -> inFlight st = [] ->
  singleBegin true trace = true -> runEvents st trace = st.
Proof.
  intros Hw Hfl. induction trace as [|ev trace IH]; [reflexivity|].
  intros Hs. cbn [runEvents fold_left].
  assert (E : step st ev = st).
  { destruct ev; cbn in Hs |- *; try discriminate Hs.
    - now rewrite Hfl.
    - unfold handleSendMessage_begin. now rewrite Hw, orb_true_r.
    - now rewrite Hfl. }
  rewrite E. apply IH. destruct ev; cbn in Hs; try discriminate Hs; exact Hs.
Qed.

(** X9: in a session that is begun once, completion is final: once the status
    reads 'Interview complete', no later event changes anything. *)
Theorem completed_is_final (config : option Config) (before after : list Event) :
  singleBegin false (before ++ after) = true ->
  phaseOf (runEvents (init config) before) = PhaseCompleted ->
  runEvents (init config) (before ++ after) = runEvents (init config) before.
Proof.
  intros Hs Hph. rewrite singleBegin_app in Hs.
  apply andb_true_iff in Hs as [H1 H2].
  pose proof (reachable_Inv2 config before H1) as HI.
  destruct (inv2_completed _ _ HI Hph) as [Hfl Hb]. rewrite Hb in H2.
  rewrite runEvents_app. apply waiting_is_frozen; [|exact Hfl | exact H2].
  apply (inv_phase _ _ (inv2_base _ _ HI)). now right.
Qed.

Lemma completed_is_final_witness :
  runEvents (init (Some sampleConfig))
    ([BeginInterview; StartResponse (HttpOkJson sampleOpening) "09:00";
      SendMessage "I led...";
      SubmitResponse (HttpOkJson (VObj [("interview_completed", VBool true)])) "09:05"]
     ++ [SendMessage "One more thing"; SubmitResponse FetchRejected "09:06"])
  = runEvents (init (Some sampleConfig))
      [BeginInterview; StartResponse (HttpOkJson sampleOpening) "09:00";
       SendMessage "I led...";
       SubmitResponse (HttpOkJson (VObj [("interview_completed", VBool true)])) "09:05"].
Proof. apply completed_is_final; reflexivity. Defined.

Lemma step_config (st : State) (ev : Event) :
  interviewConfig (step st ev) = interviewConfig st.
Proof.
  destruct ev as [| r now | v | r now]; cbn.
  - unfold handleBeginInterview, startInterview_begin. cbn.
    destruct (interviewConfig st) as [c|] eqn:E; [|now cbn].
    destruct (startRequest c); now cbn.
  - destruct (answer1 isStart (inFlight st)) as [l|]; [|reflexivity].
    unfold startInterview_resume.
    destruct (startOrchestratorInterview r) as [e|response]; [reflexivity|].
    destruct (truthy response && truthy (prop response "session_id")); [|reflexivity].
    destruct (truthy (prop response "opening_statement")); [reflexivity|].
    cbn. destruct (interviewConfig st) as [c|] eqn:E; cbn; [|exact E].
    destruct (skills c); cbn; exact E.
  - unfold handleSendMessage_begin.
    destruct (String.eqb (trim v) "" || isWaitingForAI st); [reflexivity|].
    cbn. destruct (truthy (sessionId st)); reflexivity.
  - destruct (answer1 isSubmit (inFlight st)) as [l|]; [|reflexivity].
    unfold handleSendMessage_resume, submitAnswer_resume.
    destruct r as [| s t | | data]; try reflexivity.
    destruct (completionDetector data) as [[| |]|]; reflexivity.
Qed.

Lemma runEvents_config (trace : list Event) (st : State) :
  interviewConfig (runEvents st trace) = interviewConfig st.
Proof.
  revert st. induction trace as [|ev trace IH]; intros st; [reflexivity|].
  cbn [runEvents fold_left]. fold (runEvents (step st ev) trace).
  now rewrite IH, step_config.
Qed.

(** X10: in a session that is begun once, nothing is stored before the
    interview is complete, and what is stored then is the transcript as it
    stands, last question included, with the configuration the page was
    loaded with. *)
Theorem stored_is_final_transcript (config : option Config) (trace : list Event) :
  singleBegin false trace = true ->
  let st := runEvents (init config) trace in
  (phaseOf st <> PhaseCompleted -> saved st = None)
  /\ (saved st <> None -> saved st = Some (transcript st, config)).
Proof.
  intros H. cbv zeta.
  pose proof (reachable_Inv2 config trace H) as HI.
  pose proof (runEvents_config trace (init config)) as Hc. cbn in Hc.
  destruct (inv2_saved _ _ HI) as [Hs | [Hph Hs]].
  - split; [intros _; exact Hs | intros Hn; contradiction].
  - split; [intros Hn; contradiction | intros _; now rewrite Hs, Hc].
Qed.

Lemma stored_is_final_transcript_witness :
  let st := runEvents (init (Some sampleConfig))
              [BeginInterview; StartResponse (HttpOkJson sampleOpening) "09:00";
               SendMessage "I led...";
               SubmitResponse
                 (HttpOkJson (VObj [("interview_completed", VBool true);
                                    ("next_question", VStr "Thank you")])) "09:05"] in
  saved st
  = Some ([mkEntry (VStr "Tell me about...") (Some "I led...") "09:00";
           mkEntry (VStr "Thank you") None "09:05"], Some sampleConfig)
  /\ saved sampleStarted = None.
Proof.
  destruct (stored_is_final_transcript (Some sampleConfig)
              [BeginInterview; StartResponse (HttpOkJson sampleOpening) "09:00";
               SendMessage "I led...";
               SubmitResponse
                 (HttpOkJson (VObj [("interview_completed", VBool true);
                                    ("next_question", VStr "Thank you")])) "09:05"]
              eq_refl) as [_ H1].
  destruct (stored_is_final_transcript (Some sampleConfig)
              [BeginInterview; StartResponse (HttpOkJson sampleOpening) "09:00"]
              eq_refl) as [H2 _].
  split.
  - cbv zeta. rewrite H1; [reflexivity | discriminate].
  - apply H2. discriminate.
Defined.

Lemma session_id_kept (trace : list Event) :
  forall st, Inv true st -> truthy (sessionId st) = true ->
             singleBegin true trace = true ->
             sessionId (runEvents st trace) = sessionId st.
Proof.
  induction trace as [|ev trace IH]; intros st HI Hsid Hs; [reflexivity|].
  cbn [runEvents fold_left]. fold (runEvents (step st ev) trace).
  assert (Hstep : Inv true (step st ev) /\ sessionId (step st ev) = sessionId st).
  { destruct ev as [| r now | v | r now]; cbn in Hs; try discriminate Hs.
    - split; [now apply startResponse_Inv|]. cbn.
      destruct (Inv_shape true st HI)
        as [Hfl | [(q & _ & _ & _ & Hno & _) | (q & Hfl & Hk & _)]];
        [now rewrite Hfl | congruence |].
      rewrite Hfl. cbn. now rewrite Hk.
    - split; [now apply send_Inv|]. cbn. unfold handleSendMessage_begin.
      destruct (String.eqb (trim v) "" || isWaitingForAI st); [reflexivity|].
      cbn. now rewrite Hsid.
    - split; [now apply submitResponse_Inv|]. cbn.
      destruct (answer1 isSubmit (inFlight st)) as [l|]; [|reflexivity].
      unfold handleSendMessage_resume, submitAnswer_resume.
      destruct r as [| s t | | data]; try reflexivity.
      destruct (completionDetector data) as [[| |]|]; reflexivity. }
  destruct Hstep as [HI' E]. rewrite IH; [exact E | exact HI' | congruence |].
  destruct ev; cbn in Hs; try discriminate Hs; exact Hs.
Qed.

(** X11: in a session that is begun once, the session id is set once: from the
    moment the page holds a truthy session id, no event changes it. *)
Theorem session_id_is_stable (config : option Config) (before after : list Event) :
  singleBegin false (before ++ after) = true ->
  truthy (sessionId (runEvents (init config) before)) = true ->
  sessionId (runEvents (init config) (before ++ after))
  = sessionId (runEvents (init config) before).
Proof.
  intros Hs Hsid. rewrite singleBegin_app in Hs.
  apply andb_true_iff in Hs as [H1 H2].
  pose proof (inv2_base _ _ (reachable_Inv2 config before H1)) as HI.
  destruct (begunAfter false before) eqn:Hb.
  - rewrite runEvents_app. now apply session_id_kept.
  - destruct (Inv_fresh _ HI) as (_ & Hno & _). congruence.
Qed.

Lemma session_id_is_stable_witness :
  sessionId
    (runEvents (init (Some sampleConfig))
       ([BeginInterview; StartResponse (HttpOkJson sampleOpening) "09:00"]
        ++ [SendMessage "I led...";
            StartResponse (HttpOkJson (VObj [("session_id", VStr "other")])) "09:01";
            SubmitResponse FetchRejected "09:05"]))
  = sessionId
      (runEvents (init (Some sampleConfig))
         [BeginInterview; StartResponse (HttpOkJson sampleOpening) "09:00"]).
Proof. apply session_id_is_stable; reflexivity. Defined.

Lemma noSession_kept (trace : list Event) :
  forall st, noSession st -> singleBegin true trace = true ->
             noSession (runEvents st trace).
Proof.
  induction trace as [|ev trace IH]; intros st (Hsid & Hfl & Htr) Hs; [now repeat split|].
  cbn [runEvents fold_left]. fold (runEvents (step st ev) trace).
  apply IH; [|destruct ev; cbn in Hs; try discriminate Hs; exact Hs].
  destruct ev as [| r now | v | r now]; cbn in Hs |- *; try discriminate Hs.
  - rewrite Hfl. now repeat split.
  - unfold handleSendMessage_begin.
    destruct (String.eqb (trim v) "" || isWaitingForAI st); [now repeat split|].
    cbn. rewrite Hsid. unfold noSession. cbn. rewrite Htr. now repeat split.
  - rewrite Hfl. now repeat split.
Qed.

(** X12: a start that is refused (no answer from the network, an HTTP error, a
    body that is not JSON, a falsy body, no session id) is not tried
    again: as long as the begin button is not pressed a second time,
    whatever is sent or received afterwards, no session id is held, no
    request goes out and the transcript stays empty. *)
Theorem refused_start_is_final
    (config : option Config) (r : FetchResult) (now : string) (after : list Event) :
  startRefused r = true ->
  singleBegin true after = true ->
  let st := runEvents (init config) ([BeginInterview; StartResponse r now] ++ after) in
  sessionId st = VNull /\ inFlight st = [] /\ transcript st = [].
Proof.
  intros Hr Hs. cbv zeta. rewrite runEvents_app.
  apply noSession_kept; [|exact Hs].
  assert (Hres : forall st, noSession st ->
                            noSession (startInterview_resume r now st)).
  { intros st (Hsid & Hfl & Htr). unfold startInterview_resume.
    assert (E : exists e, startOrchestratorInterview r = inl e).
    { destruct r as [| s t | | data]; cbn; try now eexists.
      cbn in Hr. destruct (truthy data); cbn in *; [|now eexists].
      rewrite Hr. now eexists. }
    destruct E as [e ->]. now repeat split. }
  cbn. unfold handleBeginInterview, startInterview_begin. cbn.
  destruct config as [c|]; cbn; [|now repeat split].
  destruct (startRequest c) as [e|req] eqn:Hreq; cbn; [now repeat split|].
  rewrite (startRequest_isStart c req Hreq). apply Hres. now repeat split.
Qed.

Lemma refused_start_is_final_witness :
  let st := runEvents (init (Some sampleConfig))
              ([BeginInterview; StartResponse (HttpNotOk 503 "Service Unavailable") "09:00"]
               ++ [SendMessage "Hello?"; SubmitResponse FetchRejected "09:01"]) in
  sessionId st = VNull /\ inFlight st = [] /\ transcript st = [].
Proof.
  apply (refused_start_is_final (Some sampleConfig)
           (HttpNotOk 503 "Service Unavailable") "09:00"
           [SendMessage "Hello?"; SubmitResponse FetchRejected "09:01"]);
    reflexivity.
Defined.

(** X13: leaving the interview through the exit button stores the transcript as
    it stands, with the configuration the page was loaded with. In a
    session that is begun once, every entry of what is stored has an
    answer, except possibly the last. *)
Theorem exit_stores_transcript (config : option Config) (trace : list Event) :
  singleBegin false trace = true ->
  let st := runEvents (init config) trace in
  saved (handleExitInterview st) = Some (transcript st, config)
  /\ transcript (handleExitInterview st) = transcript st
  /\ answeredButLast (transcript st) = true.
Proof.
  intros H. cbv zeta. unfold handleExitInterview. cbn.
  pose proof (runEvents_config trace (init config)) as Hc. cbn in Hc.
  rewrite Hc. repeat split.
  exact (inv2_answered _ _ (reachable_Inv2 config trace H)).
Qed.

Lemma exit_stores_transcript_witness :
  saved (handleExitInterview sampleStarted)
  = Some ([mkEntry (VStr "Tell me about...") None "09:00"], Some sampleConfig).
Proof.
  destruct (exit_stores_transcript (Some sampleConfig)
              [BeginInterview; StartResponse (HttpOkJson sampleOpening) "09:00"]
              eq_refl) as [H _].
  exact H.
Defined.


(** ** The dashboard beyond the claims *)
Module ReportFacts.
Import Report.

Lemma present_strOr (a : Optional string) (d : string) :
  present a = true -> a = Present (strOr a d) /\ strOr a d <> "".
Proof.
  destruct a as [| |s]; cbn; try discriminate.
  destruct (String.eqb s "") eqn:E; [discriminate|].
  intros _. split; [reflexivity | now apply String.eqb_neq].
Qed.

Lemma qaCards_In (items : list Turn) :
  forall n card,
    In card (qaCards n items)
    <-> exists i item, nth_error items i = Some item
                       /\ answeredTurn item = true
                       /\ card = createQAAnalysis item (n + i + 1).
Proof.
  induction items as [|item items IH]; intros n card; cbn [qaCards].
  - split; [contradiction | intros (i & it & H & _)]. now destruct i.
  - assert (Hrest : In card (qaCards (S n) items)
                    <-> exists i it, nth_error items i = Some it
                                     /\ answeredTurn it = true
                                     /\ card = createQAAnalysis it (n + S i + 1)).
    { rewrite IH. split; intros (i & it & H1 & H2 & H3); exists i, it;
        repeat split; try assumption; rewrite H3; f_equal; lia. }
    destruct (answeredTurn item) eqn:Ha.
    + cbn [In]. rewrite Hrest. split.
      * intros [<- | (i & it & H1 & H2 & H3)].
        -- exists 0, item. repeat split; [exact Ha | f_equal; lia].
        -- exists (S i), it. now repeat split.
      * intros ([|i] & it & H1 & H2 & H3).
        -- left. cbn in H1. injection H1 as <-. rewrite H3. f_equal. lia.
        -- right. exists i, it. now repeat split.
    + rewrite Hrest. split.
      * intros (i & it & H1 & H2 & H3). exists (S i), it. now repeat split.
      * intros ([|i] & it & H1 & H2 & H3).
        -- cbn in H1. injection H1 as <-. congruence.
        -- exists i, it. now repeat split.
Qed.

Lemma qaCards_texts (items : list Turn) :
  forall n,
    map (fun c => (cardQuestion c, cardAnswer c)) (qaCards n items)
    = map (fun t => (strOr (question t) "", strOr (answer t) ""))
          (filter answeredTurn items).
Proof.
  induction items as [|item items IH]; intros n; [reflexivity|].
  cbn [qaCards filter]. destruct (answeredTurn item); cbn [map]; now rewrite IH.
Qed.

Lemma actionCards_spec (items : list ActionItem) :
  forall n,
    map cardTitle (actionCards n items) = map title items
    /\ map toggleIndex (actionCards n items) = seq n (List.length items)
    /\ map priorityText (actionCards n items)
       = map (fun i => strOr (priority i) "Medium") items
    /\ map categoryText (actionCards n items)
       = map (fun i => strOr (category i) "General") items.
Proof.
  induction items as [|item items IH]; intros n; [now repeat split|].
  cbn. destruct (IH (S n)) as (-> & -> & -> & ->). now repeat split.
Qed.

End ReportFacts.

Import Report ReportFacts.

(** X14: how the dashboard page ends up after loading, for a stored
    transcript that parses to [null] or an array and a stored
    configuration that parses to [null] or an object. It redirects exactly
    when a stored item is missing; otherwise it shows the error screen
    exactly when a stored item does not parse; otherwise it stays idle
    exactly when the transcript is [null] or empty, or the configuration is
    [null] or lacks a role or a seniority; and it sends the evaluation
    request exactly in the remaining case, with that role and seniority and
    the whole stored transcript, unanswered entries included. The skills of
    the request are the stored list when there is one, or else the single
    stored skill, or else 'General'. *)
Theorem evaluation_request_gate
    (transcriptItem : Item (option (list Turn))) (configItem : Item (option Config)) :
  (pageLoad transcriptItem configItem = Redirected
   <-> (transcriptItem = NoItem \/ configItem = NoItem))
  /\ (pageLoad transcriptItem configItem = ErrorScreen
      <-> (transcriptItem <> NoItem /\ configItem <> NoItem
           /\ (transcriptItem = Malformed \/ configItem = Malformed)))
  /\ (pageLoad transcriptItem configItem = Idle
      <-> exists t c,
            transcriptItem = Stored t /\ configItem = Stored c
            /\ (t = None \/ t = Some [] \/ c = None
                \/ exists c', c = Some c'
                              /\ (present (role c') = false
                                  \/ present (seniority c') = false)))
  /\ (forall req,
        pageLoad transcriptItem configItem = Requested req
        <-> exists turns c,
              transcriptItem = Stored (Some turns) /\ turns <> []
              /\ configItem = Stored (Some c)
              /\ role c = Present (req_role req) /\ req_role req <> ""
              /\ seniority c = Present (req_seniority req) /\ req_seniority req <> ""
              /\ req_skills req = requestSkills c
              /\ req_transcript req = turns)
  /\ (forall c,
        (forall l, skills c = Present l -> requestSkills c = l)
        /\ ((skills c = Absent \/ skills c = Null) ->
            (forall k, skill c = Present k -> k <> "" -> requestSkills c = [k])
            /\ ((skill c = Absent \/ skill c = Null \/ skill c = Present "") ->
                requestSkills c = ["General"]))).
Proof.
  assert (Hcases :
    forall P : Outcome -> Prop,
      (transcriptItem = NoItem \/ configItem = NoItem -> P Redirected) ->
      (transcriptItem <> NoItem -> configItem <> NoItem ->
       transcriptItem = Malformed \/ configItem = Malformed -> P ErrorScreen) ->
      (forall t c, transcriptItem = Stored t -> configItem = Stored c ->
                   (t = None \/ t = Some [] \/ c = None
                    \/ exists c', c = Some c'
                                  /\ (present (role c') = false
                                      \/ present (seniority c') = false)) ->
                   P Idle) ->
      (forall t ts c, transcriptItem = Stored (Some (t :: ts)) ->
                      configItem = Stored (Some c) ->
                      present (role c) = true -> present (seniority c) = true ->
                      P (Requested (mkRequest (strOr (role c) "") (strOr (seniority c) "")
                                      (requestSkills c) (t :: ts)))) ->
      P (pageLoad transcriptItem configItem)).
  { intros P H1 H2 H3 H4. unfold pageLoad.
    destruct transcriptItem as [| |t]; [apply H1; now left | |].
    - destruct configItem as [| |c];
        [apply H1; now right | apply H2; (discriminate || now left) ..].
    - destruct configItem as [| |c];
        [apply H1; now right | apply H2; (discriminate || now right) |].
      destruct t as [[|t ts]|];
        [apply (H3 _ _ eq_refl eq_refl); right; now left | |
         apply (H3 _ _ eq_refl eq_refl); now left].
      destruct c as [c|];
        [|apply (H3 _ _ eq_refl eq_refl); right; right; now left].
      destruct (present (role c)) eqn:Hr; cbn;
        [|apply (H3 _ _ eq_refl eq_refl); right; right; right;
          exists c; split; [reflexivity | now left]].
      destruct (present (seniority c)) eqn:Hs; cbn;
        [|apply (H3 _ _ eq_refl eq_refl); right; right; right;
          exists c; split; [reflexivity | now right]].
      now apply (H4 t ts c). }
  split; [|split; [|split; [|split]]].
  - apply Hcases.
    + intros H. now split.
    + intros N1 N2 _. split; [discriminate | intros [H | H]; contradiction].
    + intros t c -> -> _. split; [discriminate | intros [H | H]; discriminate H].
    + intros t ts c -> -> _ _. split; [discriminate | intros [H | H]; discriminate H].
  - apply Hcases.
    + intros H. split; [discriminate | intros (N1 & N2 & _)].
      destruct H; contradiction.
    + intros N1 N2 H. split; [intros _; now repeat split | reflexivity].
    + intros t c -> -> _.
      split; [discriminate | intros (_ & _ & [H | H]); discriminate H].
    + intros t ts c -> -> _ _.
      split; [discriminate | intros (_ & _ & [H | H]); discriminate H].
  - apply Hcases.
    + intros H. split; [discriminate | intros (t & c & -> & -> & _)].
      destruct H as [H | H]; discriminate H.
    + intros _ _ H. split; [discriminate | intros (t & c & -> & -> & _)].
      destruct H as [H | H]; discriminate H.
    + intros t c -> -> H. split; [intros _; now exists t, c | reflexivity].
    + intros t ts c -> -> Hr Hs. split; [discriminate|].
      intros (t0 & c0 & [= <-] & [= <-] & [H | [H | [H | (c' & [= <-] & [H | H])]]]);
        congruence.
  - intros req. split.
    + unfold pageLoad.
      destruct transcriptItem as [| |[[|t ts]|]], configItem as [| |[c|]];
        try discriminate.
      destruct (present (role c)) eqn:Hr; [|discriminate].
      destruct (present (seniority c)) eqn:Hs; [|discriminate].
      cbn. intros [= <-]. cbn.
      destruct (present_strOr _ "" Hr) as [Er Nr].
      destruct (present_strOr _ "" Hs) as [Es Ns].
      exists (t :: ts), c. repeat split; try assumption. discriminate.
    + intros (turns & c & -> & Hne & -> & Hr & Nr & Hs & Ns & Hsk & Ht).
      destruct turns as [|t ts]; [contradiction|].
      unfold pageLoad. rewrite Hr, Hs. cbn.
      apply String.eqb_neq in Nr, Ns. rewrite Nr, Ns. cbn.
      destruct req as [r s k tr]. cbn in *. now subst.
  - intros c. unfold requestSkills, strOr. split.
    + now intros l ->.
    + intros [-> | ->]; (split;
        [intros k -> Hk; apply String.eqb_neq in Hk; now rewrite Hk
        |intros [-> | [-> | ->]]; reflexivity]).
Qed.

Lemma evaluation_request_gate_witness :
  pageLoad
    (Stored (Some [mkTurn (Present "Tell me about...") Null Absent]))
    (Stored (Some (mkConfig (Present "Product Manager") (Present "Senior")
                     Absent Absent Absent Absent)))
  = Requested
      (mkRequest "Product Manager" "Senior" ["General"]
         [mkTurn (Present "Tell me about...") Null Absent])
  /\ pageLoad NoItem (Stored (@None Config)) = Redirected
  /\ pageLoad (Stored (Some [mkTurn (Present "Tell me about...") Null Absent]))
              Malformed = ErrorScreen
  /\ pageLoad (Stored (Some [])) (Stored (@None Config)) = Idle
  /\ requestSkills (mkConfig Absent Absent Null (Present "Product Sense") Absent Absent)
     = ["Product Sense"].
Proof.
  repeat match goal with |- _ /\ _ => split end.
  - destruct (evaluation_request_gate
                (Stored (Some [mkTurn (Present "Tell me about...") Null Absent]))
                (Stored (Some (mkConfig (Present "Product Manager") (Present "Senior")
                                 Absent Absent Absent Absent))))
      as (_ & _ & _ & H & _).
    apply H. eexists _, _. repeat split; discriminate.
  - destruct (evaluation_request_gate NoItem (Stored (@None Config))) as (H & _).
    apply H. now left.
  - destruct (evaluation_request_gate
                (Stored (Some [mkTurn (Present "Tell me about...") Null Absent]))
                (@Malformed (option Config))) as (_ & H & _).
    apply H. repeat split; try discriminate. now right.
  - destruct (evaluation_request_gate (Stored (Some [])) (Stored (@None Config)))
      as (_ & _ & H & _).
    apply H. eexists _, _. repeat split. right; left. reflexivity.
  - destruct (evaluation_request_gate NoItem (@NoItem (option Config)))
      as (_ & _ & _ & _ & H).
    destruct (H (mkConfig Absent Absent Null (Present "Product Sense") Absent Absent))
      as [_ H'].
    destruct (H' (or_intror eq_refl)) as [H'' _].
    apply (H'' "Product Sense"); [reflexivity | discriminate].
Defined.

(** X15: the executive summary is never shown empty: a summary that is absent,
    [null] or the empty string gives 'No executive summary available.' in
    red; any other summary is shown as it is. *)
Theorem executive_summary_never_empty
    (executiveSummary : Optional string) (old : string * bool) :
  fst (updateExecutiveSummary executiveSummary old) <> ""
  /\ (present executiveSummary = true ->
        updateExecutiveSummary executiveSummary old
        = (strOr executiveSummary "", snd old))
  /\ (present executiveSummary = false ->
        updateExecutiveSummary executiveSummary old
        = ("No executive summary available.", true)).
Proof.
  unfold updateExecutiveSummary.
  destruct executiveSummary as [| |s]; cbn; try (repeat split; discriminate).
  destruct (String.eqb s "") eqn:E; cbn; repeat split; try discriminate.
  now apply String.eqb_neq.
Qed.

Lemma executive_summary_never_empty_witness :
  updateExecutiveSummary (Present "") ("Loading...", false)
  = ("No executive summary available.", true)
  /\ updateExecutiveSummary (Present "Solid interview") ("Loading...", false)
     = ("Solid interview", false).
Proof.
  destruct (executive_summary_never_empty (Present "") ("Loading...", false))
    as (_ & _ & H1).
  destruct (executive_summary_never_empty (Present "Solid interview")
              ("Loading...", false)) as (_ & H2 & _).
  split; [apply H1 | apply H2]; reflexivity.
Defined.

(** X16: the transcript of the dashboard shows one card for each stored turn
    that has both a question and an answer, in the order of the turns, and
    none for any other turn; a card carries the position of its turn in
    the stored transcript, counted from 1, so the numbers skip the turns
    that are not shown. *)
Theorem transcript_cards_are_answered_turns (items : list Turn) (card : QACard) :
  (In card (qaCards 0 items)
   <-> exists i item, nth_error items i = Some item
                      /\ answeredTurn item = true
                      /\ card = createQAAnalysis item (i + 1))
  /\ map (fun c => (cardQuestion c, cardAnswer c)) (qaCards 0 items)
     = map (fun t => (strOr (question t) "", strOr (answer t) ""))
           (filter answeredTurn items)
  /\ (generateEnhancedTranscript (Some items) = None <-> items = []).
Proof.
  split; [apply (qaCards_In items 0 card) | split; [apply qaCards_texts|]].
  destruct items; cbn; split; try reflexivity; discriminate.
Qed.

(** X17: the action items are shown in the order of the payload, one card per
    item, each with its own index for the evidence toggle; a missing
    priority or category reads 'Medium' resp. 'General'. The placeholder
    is shown exactly when the payload has no action item. *)
Theorem action_items_keep_order (action_items : Optional (list ActionItem)) :
  (generateActionItems action_items = None
   <-> (forall items, action_items = Present items -> items = []))
  /\ (forall items cards,
        action_items = Present items ->
        generateActionItems action_items = Some cards ->
        map cardTitle cards = map title items
        /\ map toggleIndex cards = seq 0 (List.length items)
        /\ map priorityText cards = map (fun i => strOr (priority i) "Medium") items
        /\ map categoryText cards = map (fun i => strOr (category i) "General") items).
Proof.
  split.
  - destruct action_items as [| |[|item rest]]; cbn; split; try reflexivity;
      try discriminate; try (intros _ items [=]; fail).
    + intros _ items [= <-]. reflexivity.
    + intros H. discriminate (H _ eq_refl).
  - intros items cards -> H.
    destruct items as [|item rest]; [discriminate|].
    cbn [generateActionItems] in H. injection H as <-.
    exact (actionCards_spec (item :: rest) 0).
Qed.

Lemma action_items_keep_order_witness :
  map cardTitle
    (actionCards 0 [mkActionItem (Present "Quantify impact") (Present "Low") Absent Absent;
                    mkActionItem (Present "Structure answers") Absent Absent Absent])
  = [Present "Quantify impact"; Present "Structure answers"].
Proof.
  destruct (action_items_keep_order
              (Present [mkActionItem (Present "Quantify impact") (Present "Low") Absent Absent;
                        mkActionItem (Present "Structure answers") Absent Absent Absent]))
    as [_ H].
  destruct (H _ _ eq_refl eq_refl) as [H1 _]. exact H1.
Defined.

(** X18: the dashboard shows a number exactly when the payload has an overall
    score: every score that is there, 0 included, is shown with its label,
    and only an absent or [null] score gives the question mark. Showing a
    score does not take back the red of an earlier failure. *)
Theorem dashboard_score_shown_iff (data : Dashboard.Payload) (v : Dashboard.View) :
  let v' := Dashboard.displayDashboard data v in
  (forall score,
     Dashboard.overallScoreOf data = Present score ->
     Dashboard.scoreValue v' = Dashboard.OutOfFive score
     /\ Dashboard.scoreLabel v' = Dashboard.scoreLabelText score
     /\ Dashboard.scoreInRed v' = Dashboard.scoreInRed v)
  /\ (Dashboard.scoreValue v' = Dashboard.QuestionMark
      <-> forall score, Dashboard.overallScoreOf data <> Present score).
Proof.
  cbv zeta. unfold Dashboard.displayDashboard.
  destruct (Dashboard.overallScoreOf data) as [| |q] eqn:E;
    destruct (Dashboard.dimension_evaluations data) as [| |[|d dims]]; cbn;
    (split; [intros score [=]; subst; now repeat split
            | split; [try discriminate; intros _ score; discriminate
                     | try reflexivity; intros H; now destruct (H q)]]).
Qed.

Lemma dashboard_score_shown_iff_witness :
  let v' := Dashboard.displayDashboard
              (Dashboard.mkPayload
                 (Present (Dashboard.mkOverall (Present 0%Q) Absent)) Absent)
              (Dashboard.mkView Dashboard.QuestionMark "Could not calculate score" true None) in
  Dashboard.scoreValue v' = Dashboard.OutOfFive 0%Q
  /\ Dashboard.scoreLabel v' = "Needs Improvement"
  /\ Dashboard.scoreInRed v' = true.
Proof.
  destruct (dashboard_score_shown_iff
              (Dashboard.mkPayload
                 (Present (Dashboard.mkOverall (Present 0%Q) Absent)) Absent)
              (Dashboard.mkView Dashboard.QuestionMark "Could not calculate score" true None))
    as [H _].
  exact (H 0%Q eq_refl).
Defined.

Module KeysFacts.
Import Keys.

Lemma insertByIndex_perm {A : Type} (n : N) (e : string * A)
    (l : list (N * (string * A))) :
  Permutation (map snd (insertByIndex n e l)) (e :: map snd l).
Proof.
  induction l as [|[m e'] l IH]; cbn; [reflexivity|].
  destruct (N.ltb n m); cbn; [reflexivity|].
  rewrite IH. apply perm_swap.
Qed.

Lemma ownEntries_perm {A : Type} (props : list (string * A)) :
  Permutation (ownEntries props) props.
Proof.
  unfold ownEntries, named.
  induction props as [|e props IH]; [reflexivity|].
  cbn. destruct (arrayIndex (fst e)) as [n|].
  - rewrite insertByIndex_perm. cbn. now apply perm_skip.
  - symmetry. apply Permutation_cons_app. now symmetry.
Qed.

Lemma ownEntries_named {A : Type} (props : list (string * A)) :
  (forall e, In e props -> arrayIndex (fst e) = None) -> ownEntries props = props.
Proof.
  intros H.
  assert (Hi : indexed props = []).
  { induction props as [|e props IH]; [reflexivity|].
    cbn. rewrite (H e (or_introl eq_refl)).
    apply IH. intros x Hx. apply H. now right. }
  assert (Hn : named props = props).
  { unfold named. induction props as [|e props IH]; [reflexivity|].
    cbn. rewrite (H e (or_introl eq_refl)). f_equal.
    apply IH.
    - intros x Hx. apply H. now right.
    - cbn in Hi. now rewrite (H e (or_introl eq_refl)) in Hi. }
  unfold ownEntries. now rewrite Hi, Hn.
Qed.

End KeysFacts.

(** X19: the radar chart has one point per dimension of the payload, in the
    order in which [Object.keys] lists the names: the names that are array
    indices first, ascending, then the others as the payload has them, so
    the order of the payload when no name is an array index. The point of
    a dimension is its rating, or 0 when the rating is absent, [null] or
    0. Without any dimension the chart is not drawn. *)
Theorem radar_has_one_point_per_dimension
    (data : Dashboard.Payload) (v : Dashboard.View)
    (dims : list (string * Dashboard.DimensionEvaluation)) :
  Dashboard.dimension_evaluations data = Present dims ->
  (dims <> [] ->
     exists scores,
       Dashboard.radar (Dashboard.displayDashboard data v) = Some scores
       /\ List.length scores = List.length dims
       /\ forall i name d,
            nth_error (Keys.ownEntries dims) i = Some (name, d) ->
            exists p,
              nth_error scores i = Some p
              /\ (forall q, Dashboard.rating d = Present q ->
                            Qeq_bool q 0 = false -> p = q)
              /\ ((Dashboard.rating d = Absent \/ Dashboard.rating d = Null
                   \/ exists q, Dashboard.rating d = Present q /\ Qeq_bool q 0 = true) ->
                  p = 0%Q))
  /\ Permutation (Keys.ownEntries dims) dims
  /\ ((forall e, In e dims -> Keys.arrayIndex (fst e) = None) ->
      Keys.ownEntries dims = dims)
  /\ (dims = [] ->
      Dashboard.radar (Dashboard.displayDashboard data v) = Dashboard.radar v).
Proof.
  intros Hd. unfold Dashboard.displayDashboard. rewrite Hd.
  split; [|split; [apply KeysFacts.ownEntries_perm
                  |split; [apply KeysFacts.ownEntries_named|]]].
  - intros Hne. destruct dims as [|d0 dims]; [contradiction|].
    eexists. split; [reflexivity | split].
    + rewrite length_map.
      apply Permutation_length, KeysFacts.ownEntries_perm.
    + intros i name d Hi. rewrite nth_error_map, Hi. cbn.
      eexists. split; [reflexivity | split].
      * intros q Hq Hz. unfold Dashboard.ratingOrZero. now rewrite Hq, Hz.
      * unfold Dashboard.ratingOrZero.
        intros [-> | [-> | (q & -> & ->)]]; reflexivity.
  - intros ->. now destruct (Dashboard.overallScoreOf data).
Qed.

Lemma radar_has_one_point_per_dimension_witness :
  exists scores,
    Dashboard.radar
      (Dashboard.displayDashboard
         (Dashboard.mkPayload Absent
            (Present [("communication", Dashboard.mkDimension (Present 4%Q) Absent);
                      ("10", Dashboard.mkDimension (Present 3.5%Q) Absent);
                      ("leadership", Dashboard.mkDimension (Present 0%Q) Absent);
                      ("2", Dashboard.mkDimension Absent Absent)]))
         (Dashboard.mkView Dashboard.QuestionMark "" false None)) = Some scores
    /\ scores = [0%Q; 3.5%Q; 4%Q; 0%Q].
Proof.
  destruct (radar_has_one_point_per_dimension
              (Dashboard.mkPayload Absent
                 (Present [("communication", Dashboard.mkDimension (Present 4%Q) Absent);
                           ("10", Dashboard.mkDimension (Present 3.5%Q) Absent);
                           ("leadership", Dashboard.mkDimension (Present 0%Q) Absent);
                           ("2", Dashboard.mkDimension Absent Absent)]))
              (Dashboard.mkView Dashboard.QuestionMark "" false None)
              _ eq_refl) as [H _].
  destruct H as (scores & H1 & _ & Hv); [discriminate|].
  exists scores. split; [exact H1|].
  destruct (Hv 0 _ _ eq_refl) as (p0 & E0 & _ & Z0).
  destruct (Hv 1 _ _ eq_refl) as (p1 & E1 & V1 & _).
  destruct (Hv 2 _ _ eq_refl) as (p2 & E2 & V2 & _).
  destruct (Hv 3 _ _ eq_refl) as (p3 & E3 & _ & Z3).
  rewrite (Z0 (or_introl eq_refl)) in E0.
  rewrite (V1 _ eq_refl eq_refl) in E1.
  rewrite (V2 _ eq_refl eq_refl) in E2.
  rewrite (Z3 (or_intror (or_intror (ex_intro _ 0%Q (conj eq_refl eq_refl))))) in E3.
  cbv in H1. injection H1 as <-. reflexivity.
Defined.

(** ** The legacy feedback page beyond the claims *)

(** X22: the class of the legacy score follows the thresholds 90, 75 and 60 and
    is one of four for every score. *)
Theorem legacy_score_classes (score : Q) :
  ((90 <= score)%Q ->
     LegacyFeedback.scoreClass (LegacyFeedback.updateOverallScore score) = "score-excellent")
  /\ ((75 <= score)%Q -> (score < 90)%Q ->
        LegacyFeedback.scoreClass (LegacyFeedback.updateOverallScore score) = "score-good")
  /\ ((60 <= score)%Q -> (score < 75)%Q ->
        LegacyFeedback.scoreClass (LegacyFeedback.updateOverallScore score) = "score-fair")
  /\ ((score < 60)%Q ->
        LegacyFeedback.scoreClass (LegacyFeedback.updateOverallScore score) = "score-poor")
  /\ LegacyFeedback.scoreText (LegacyFeedback.updateOverallScore score) = score.
Proof.
  assert (below : forall a b, (a <= b)%Q -> (score < a)%Q -> Qle_bool b score = false).
  { intros a b Hab Hs. apply Qle_bool_false. eapply Qlt_le_trans; eassumption. }
  assert (H90 : (75 <= 90)%Q) by (unfold Qle; cbn; lia).
  assert (H75 : (60 <= 75)%Q) by (unfold Qle; cbn; lia).
  unfold LegacyFeedback.updateOverallScore. cbn.
  repeat match goal with |- _ /\ _ => split end.
  - intros H. apply Qle_bool_iff in H. now rewrite H.
  - intros H1 H2. apply Qle_bool_iff in H1.
    now rewrite (below 90%Q 90%Q (Qle_refl _) H2), H1.
  - intros H1 H2. apply Qle_bool_iff in H1.
    assert (H3 : (score < 90)%Q) by (eapply Qlt_le_trans; eassumption).
    now rewrite (below 90%Q 90%Q (Qle_refl _) H3), (below 75%Q 75%Q (Qle_refl _) H2), H1.
  - intros H2.
    assert (H3 : (score < 75)%Q) by (eapply Qlt_le_trans; eassumption).
    assert (H4 : (score < 90)%Q) by (eapply Qlt_le_trans; eassumption).
    now rewrite (below 90%Q 90%Q (Qle_refl _) H4), (below 75%Q 75%Q (Qle_refl _) H3),
      (below 60%Q 60%Q (Qle_refl _) H2).
  - reflexivity.
Qed.

Lemma legacy_score_classes_witness :
  LegacyFeedback.scoreClass (LegacyFeedback.updateOverallScore 90%Q) = "score-excellent"
  /\ LegacyFeedback.scoreClass (LegacyFeedback.updateOverallScore 89.5%Q) = "score-good"
  /\ LegacyFeedback.scoreClass (LegacyFeedback.updateOverallScore 60%Q) = "score-fair"
  /\ LegacyFeedback.scoreClass (LegacyFeedback.updateOverallScore 59%Q) = "score-poor".
Proof.
  destruct (legacy_score_classes 90%Q) as (H1 & _).
  destruct (legacy_score_classes 89.5%Q) as (_ & H2 & _).
  destruct (legacy_score_classes 60%Q) as (_ & _ & H3 & _).
  destruct (legacy_score_classes 59%Q) as (_ & _ & _ & H4 & _).
  repeat match goal with |- _ /\ _ => split end.
  - apply H1. unfold Qle; cbn; lia.
  - apply H2; [unfold Qle | unfold Qlt]; cbn; lia.
  - apply H3; [unfold Qle | unfold Qlt]; cbn; lia.
  - apply H4. unfold Qlt; cbn; lia.
Defined.

(** X23: the legacy page never shows the score 0: a score of 0, like an absent
    or [null] one, is replaced by 75, so the class of a score the page
    shows for such a payload is 'score-good'; every other score is shown
    as it is. *)
Theorem legacy_score_never_zero (data : LegacyFeedback.Payload) :
  Qeq_bool (LegacyFeedback.scoreText (LegacyFeedback.displayFeedback data)) 0 = false
  /\ (forall q, LegacyFeedback.overall_score data = Present q ->
                Qeq_bool q 0 = false ->
                LegacyFeedback.scoreText (LegacyFeedback.displayFeedback data) = q)
  /\ (forall q, LegacyFeedback.overall_score data = Present q ->
                Qeq_bool q 0 = true ->
                LegacyFeedback.displayFeedback data = LegacyFeedback.mkView 75%Q "score-good").
Proof.
  unfold LegacyFeedback.displayFeedback, LegacyFeedback.scoreOrDefault.
  destruct (LegacyFeedback.overall_score data) as [| |q]; cbn.
  - repeat split; discriminate.
  - repeat split; discriminate.
  - destruct (Qeq_bool q 0) eqn:E; cbn.
    + repeat split; try discriminate. intros q' [= <-]. congruence.
    + rewrite E. repeat split; try discriminate.
      * intros q' [= <-]. reflexivity.
      * intros q' [= <-]. congruence.
Qed.

Lemma legacy_score_never_zero_witness :
  LegacyFeedback.displayFeedback (LegacyFeedback.mkPayload (Present 0%Q) Absent)
  = LegacyFeedback.mkView 75%Q "score-good"
  /\ LegacyFeedback.scoreText
       (LegacyFeedback.displayFeedback (LegacyFeedback.mkPayload (Present 42%Q) Absent))
     = 42%Q.
Proof.
  destruct (legacy_score_never_zero (LegacyFeedback.mkPayload (Present 0%Q) Absent))
    as (_ & _ & H1).
  destruct (legacy_score_never_zero (LegacyFeedback.mkPayload (Present 42%Q) Absent))
    as (_ & H2 & _).
  split; [apply (H1 0%Q) | apply (H2 42%Q)]; reflexivity.
Defined.

(** ** Text functions *)
Module TextFacts.
Import Text.

Lemma upper_word (c : ascii) : isWordChar (upper c) = isWordChar c.
Proof. destruct c as [[] [] [] [] [] [] [] []]; reflexivity. Qed.

Lemma upper_upper (c : ascii) : upper (upper c) = upper c.
Proof. destruct c as [[] [] [] [] [] [] [] []]; reflexivity. Qed.

Lemma upper_underscore (c : ascii) : Ascii.eqb (upper c) "_" = Ascii.eqb c "_".
Proof. destruct c as [[] [] [] [] [] [] [] []]; reflexivity. Qed.

Lemma length_underscoresToSpaces (s : string) :
  String.length (underscoresToSpaces s) = String.length s.
Proof. induction s as [|c s IH]; cbn; [reflexivity | now rewrite IH]. Qed.

Lemma length_capitalizeWords (s : string) :
  forall b, String.length (capitalizeWords b s) = String.length s.
Proof. induction s as [|c s IH]; intros b; cbn; [reflexivity | now rewrite IH]. Qed.

Lemma underscoresToSpaces_clean (s : string) :
  hasChar "_" (underscoresToSpaces s) = false.
Proof.
  induction s as [|c s IH]; [reflexivity|].
  cbn. rewrite IH. destruct (Ascii.eqb c "_") eqn:E; [reflexivity|].
  now rewrite E.
Qed.

Lemma underscoresToSpaces_id (s : string) :
  hasChar "_" s = false -> underscoresToSpaces s = s.
Proof.
  induction s as [|c s IH]; [reflexivity|].
  cbn. intros H. apply orb_false_iff in H as [H1 H2].
  now rewrite H1, IH.
Qed.

Lemma capitalizeWords_clean (s : string) :
  forall b, hasChar "_" s = false -> hasChar "_" (capitalizeWords b s) = false.
Proof.
  induction s as [|c s IH]; intros b; [reflexivity|].
  cbn. intros H. apply orb_false_iff in H as [H1 H2].
  rewrite (IH _ H2).
  destruct (isWordChar c && negb b); [now rewrite upper_underscore, H1 | now rewrite H1].
Qed.

Lemma capitalizeWords_twice (s : string) :
  forall b, capitalizeWords b (capitalizeWords b s) = capitalizeWords b s.
Proof.
  induction s as [|c s IH]; intros b; [reflexivity|].
  cbn. destruct (isWordChar c && negb b) eqn:E.
  - rewrite upper_word, E, upper_upper. now rewrite IH.
  - rewrite E. now rewrite IH.
Qed.

Lemma splitOn_not_nil (sep : ascii) (s : string) : splitOn sep s <> [].
Proof.
  destruct s as [|c s]; cbn; [discriminate|].
  destruct (Ascii.eqb c sep); [discriminate|].
  destruct (splitOn sep s); discriminate.
Qed.

Lemma splitOn_whole (sep : ascii) (s : string) :
  hasChar sep s = false -> splitOn sep s = [s].
Proof.
  induction s as [|c s IH]; [reflexivity|].
  cbn. intros H. apply orb_false_iff in H as [H1 H2].
  now rewrite H1, (IH H2).
Qed.

Lemma splitOn_app (sep : ascii) (a b : string) :
  splitOn sep (a ++ String sep b)%string = splitOn sep a ++ splitOn sep b.
Proof.
  induction a as [|c a IH]; cbn.
  - now rewrite Ascii.eqb_refl.
  - destruct (Ascii.eqb c sep); rewrite IH; [reflexivity|].
    destruct (splitOn sep a) eqn:E; [now destruct (splitOn_not_nil sep a)|].
    reflexivity.
Qed.

Lemma last_app_right {A : Type} (x y : list A) (d : A) :
  y <> [] -> last (x ++ y) d = last y d.
Proof.
  intros Hy. induction x as [|a x IH]; [reflexivity|].
  cbn [app]. destruct (x ++ y) eqn:E.
  - destruct x, y; try discriminate. contradiction.
  - cbn [last]. exact IH.
Qed.

(** An occurrence of [".html"] cannot begin in a text that does not hold
    one and end in a [".html"] that follows it. *)
Lemma startsWith_html_app (s : string) :
  s <> "" -> startsWith ".html" s = false ->
  startsWith ".html" (s ++ ".html")%string = false.
Proof.
  intros Hne H.
  destruct s as [|c1 s]; [contradiction|].
  cbn [startsWith String.append] in *.
  destruct (Ascii.eqb "." c1); [|reflexivity]. cbn [andb] in *.
  destruct s as [|c2 s]; [reflexivity|].
  cbn [startsWith String.append] in *.
  destruct (Ascii.eqb "h" c2); [|reflexivity]. cbn [andb] in *.
  destruct s as [|c3 s]; [reflexivity|].
  cbn [startsWith String.append] in *.
  destruct (Ascii.eqb "t" c3); [|reflexivity]. cbn [andb] in *.
  destruct s as [|c4 s]; [reflexivity|].
  cbn [startsWith String.append] in *.
  destruct (Ascii.eqb "m" c4); [|reflexivity]. cbn [andb] in *.
  destruct s as [|c5 s]; [reflexivity|].
  cbn [startsWith String.append] in *.
  destruct (Ascii.eqb "l" c5); [discriminate | reflexivity].
Qed.

Lemma removeFirst_html_end (page : string) :
  contains ".html" page = false -> removeFirst ".html" (page ++ ".html")%string = page.
Proof.
  induction page as [|c page IH]; [reflexivity|].
  intros H. cbn [contains] in H. apply orb_false_iff in H as [H1 H2].
  cbn [String.append removeFirst].
  change (String c (page ++ ".html"))%string with (String c page ++ ".html")%string.
  rewrite (startsWith_html_app (String c page)); [|discriminate | exact H1].
  cbn [String.append]. now rewrite (IH H2).
Qed.

Lemma two_digits (n : nat) : n < 60 -> String.length (padStart2 (decimal n)) = 2.
Proof.
  intros H. do 60 (destruct n as [|n]; [reflexivity|]). lia.
Qed.

End TextFacts.

Import Text TextFacts.

(** X21: the display name of a dimension or category has the length of the
    name and no underscore, and building it again from itself changes
    nothing. *)
Theorem display_name_is_stable (name : string) :
  String.length (displayName name) = String.length name
  /\ hasChar "_" (displayName name) = false
  /\ displayName (displayName name) = displayName name.
Proof.
  unfold displayName. repeat split.
  - now rewrite length_capitalizeWords, length_underscoresToSpaces.
  - apply capitalizeWords_clean, underscoresToSpaces_clean.
  - rewrite underscoresToSpaces_id
      by (apply capitalizeWords_clean, underscoresToSpaces_clean).
    apply capitalizeWords_twice.
Qed.

(** X24: [getCurrentPage] never returns the empty text. For a path that ends in
    [/page.html], where [page] holds no slash and no [".html"] and is not
    empty, it returns [page]; for a path that ends in a slash it returns
    'index'. *)
Theorem current_page_of_path (dir page : string) :
  Utils.getCurrentPage (dir ++ "/")%string = "index"
  /\ (forall path, Utils.getCurrentPage path <> "")
  /\ (hasChar "/" page = false ->
      contains ".html" page = false ->
      page <> "" ->
      Utils.getCurrentPage (dir ++ "/" ++ page ++ ".html")%string = page).
Proof.
  repeat split.
  - unfold Utils.getCurrentPage.
    change (dir ++ "/")%string with (dir ++ String "/" "")%string.
    rewrite splitOn_app, last_app_right by discriminate. reflexivity.
  - intros path. unfold Utils.getCurrentPage.
    destruct (String.eqb (removeFirst ".html" (last (splitOn "/" path) "")) "") eqn:E;
      [discriminate | now apply String.eqb_neq].
  - intros Hslash Hhtml Hne. unfold Utils.getCurrentPage.
    change (dir ++ "/" ++ page ++ ".html")%string
      with (dir ++ String "/" (page ++ ".html"))%string.
    rewrite splitOn_app, last_app_right by apply splitOn_not_nil.
    rewrite splitOn_whole.
    + cbn [last]. rewrite removeFirst_html_end by exact Hhtml.
      apply String.eqb_neq in Hne. now rewrite Hne.
    + clear -Hslash. induction page as [|c page IH]; [reflexivity|].
      cbn in *. apply orb_false_iff in Hslash as [H1 H2].
      now rewrite H1, (IH H2).
Qed.

Lemma current_page_of_path_witness :
  Utils.getCurrentPage "/prepai/pages/feedback.html" = "feedback".
Proof.
  destruct (current_page_of_path "/prepai/pages" "feedback") as (_ & _ & H).
  apply H; [reflexivity | reflexivity | discriminate].
Defined.

(** X25: [validateInterviewConfig] accepts a configuration exactly when it has
    a role, a seniority and exactly one skill. It reports at most three
    errors, never both skill errors at once. Whatever it accepts, the
    interview page's own check accepts too. *)
Theorem validate_config_iff (config : Utils.Config) :
  (Utils.isValid config = true
   <-> exists r s k,
         Utils.role config = Present r /\ r <> ""
         /\ Utils.seniority config = Present s /\ s <> ""
         /\ Utils.skills config = Present [k])
  /\ List.length (Utils.validateInterviewConfig config) <= 3
  /\ ~ (In "At least one skill must be selected" (Utils.validateInterviewConfig config)
        /\ In "Only one skill can be selected" (Utils.validateInterviewConfig config))
  /\ (forall r s k name description,
        Utils.isValid config = true ->
        Utils.role config = Present r ->
        Utils.seniority config = Present s ->
        Utils.skills config = Present [k] ->
        Session.isValidConfiguration (Interview.mkConfig r s [k] name description) = true).
Proof.
  unfold Utils.isValid, Utils.validateInterviewConfig, Utils.errorIf, Report.present.
  destruct (Utils.role config) as [| |r]; destruct (Utils.seniority config) as [| |s];
    destruct (Utils.skills config) as [| |[|k [|k' ks]]];
    try destruct (String.eqb r "") eqn:Er; try destruct (String.eqb s "") eqn:Es;
    cbn; (split; [split; [try discriminate; intros _ | intros (r0 & s0 & k0 & H1 & N1 & H2 & N2 & H3)]
                | split; [lia | split; [intros [Ha Hb]|]]]);
    try discriminate; try reflexivity;
    try (injection H1 as <-; injection H2 as <-;
         apply String.eqb_neq in N1, N2; congruence);
    try (repeat (destruct Ha as [Ha | Ha]; try discriminate Ha); try contradiction;
         repeat (destruct Hb as [Hb | Hb]; try discriminate Hb); contradiction).
  - exists r, s, k. apply String.eqb_neq in Er, Es. now repeat split.
  - intros r0 s0 k0 name description _ [= <-] [= <-] [= <-].
    unfold Session.isValidConfiguration. cbn. now rewrite Er, Es.
Qed.

Lemma validate_config_iff_witness :
  Utils.isValid
    (Utils.mkConfig (Present "Product Manager") (Present "Senior")
       (Present ["Product Sense (user empathy)"])) = true.
Proof.
  destruct (validate_config_iff
              (Utils.mkConfig (Present "Product Manager") (Present "Senior")
                 (Present ["Product Sense (user empathy)"]))) as [[_ H] _].
  apply H. eexists _, _, _. repeat split; discriminate.
Defined.

(** X26: the dashboard shows the duration the interview page formatted, and
    computes the same text itself when only the number of seconds is
    stored and is not 0; with neither it shows 'N/A'. The seconds always
    take two digits. *)
Theorem duration_display_agrees (c : Report.Config) (d : nat) :
  String.length (padStart2 (decimal (d mod 60))) = 2
  /\ (Report.durationFormatted c = Present (Duration.formatDuration d) ->
      Duration.updateDurationDisplay c = Duration.formatDuration d)
  /\ (Report.present (Report.durationFormatted c) = false ->
      Report.duration c = Present d -> 0 < d ->
      Duration.updateDurationDisplay c = Duration.formatDuration d)
  /\ (Report.present (Report.durationFormatted c) = false ->
      (Report.duration c = Absent \/ Report.duration c = Null
       \/ Report.duration c = Present 0) ->
      Duration.updateDurationDisplay c = "N/A").
Proof.
  repeat split.
  - apply two_digits, Nat.mod_upper_bound. discriminate.
  - intros H. unfold Duration.updateDurationDisplay. rewrite H.
    assert (E : String.eqb (Duration.formatDuration d) "" = false).
    { unfold Duration.formatDuration.
      destruct (decimal (d / 60)); reflexivity. }
    unfold Report.present, Report.strOr. now rewrite E.
  - intros Hf Hd Hpos. unfold Duration.updateDurationDisplay. rewrite Hf, Hd.
    destruct d as [|d]; [lia | reflexivity].
  - intros Hf Hd. unfold Duration.updateDurationDisplay. rewrite Hf.
    destruct Hd as [-> | [-> | ->]]; reflexivity.
Qed.

Lemma duration_display_agrees_witness :
  Duration.updateDurationDisplay
    (Report.mkConfig Absent Absent Absent Absent (Present 125) Absent) = "2:05"
  /\ Duration.updateDurationDisplay
       (Report.mkConfig Absent Absent Absent Absent (Present 125) (Present "2:05")) = "2:05"
  /\ Duration.updateDurationDisplay
       (Report.mkConfig Absent Absent Absent Absent (Present 0) Absent) = "N/A".
Proof.
  destruct (duration_display_agrees
              (Report.mkConfig Absent Absent Absent Absent (Present 125) Absent) 125)
    as (_ & _ & H1 & _).
  destruct (duration_display_agrees
              (Report.mkConfig Absent Absent Absent Absent (Present 125) (Present "2:05")) 125)
    as (_ & H2 & _).
  destruct (duration_display_agrees
              (Report.mkConfig Absent Absent Absent Absent (Present 0) Absent) 0)
    as (_ & _ & _ & H3).
  split; [|split].
  - apply H1; [reflexivity | reflexivity | lia].
  - apply H2. reflexivity.
  - apply H3; [reflexivity | now right; right].
Defined.
